(** * Sidlume storefront: the local wishlist and cart stores

    A shallow embedding of the four screens that own the wishlist and the
    cart (Shop, ProductDetails, Wishlist, Cart) and of the way they use
    AsyncStorage, followed by the properties of the collection store.

    - JavaScript numbers that hold identifiers and quantities are modelled
      as [Z]: the handlers only add or subtract one and compare, which is
      exact on integers below 2^53.  Prices are binary64 floats, as in
      the source, so that [getTotalPrice] computes what the screen shows;
      a quantity enters the product with a price as the double nearest
      to it ([number]).
    - A stored string is modelled by what [JSON.parse] makes of it (type
      [text]); [JSON.stringify] of a value of the expected shape is a text
      that parses back to that value.
    - An [async] function is a tree of its suspension points (type
      [Async]); [run] executes one call to completion, [resume] executes
      one call up to its next [await], so that calls in flight together
      can be interleaved. *)

From Stdlib Require Import ZArith QArith Qabs Lia.
From Stdlib Require Import PrimFloat FloatOps SpecFloat FloatAxioms Uint63.
From stdpp Require Import base option numbers list strings.

Local Close Scope Q_scope.
Local Open Scope Z_scope.

(** ** Data model *)

(** [interface Product] of the Shop and ProductDetails screens.  The
    Wishlist screen declares the same object with four of the fields. *)
Module Product.
Record t : Type := mk
  { id : Z;
    title : string;
    price : float;
    description : string;
    category : string;
    image : string }.
End Product.

(** [interface CartItem] of the Cart screen. *)
Module CartItem.
Record t : Type := mk
  { id : Z;
    title : string;
    price : float;
    image : string;
    quantity : Z }.

(** [{ ...item, quantity: q }] *)
Definition with_quantity (item : t) (q : Z) : t :=
  mk (id item) (title item) (price item) (image item) q.
End CartItem.

(** JSON values that are neither arrays nor strings (an object is kept by
    its member names): none of them answers an array method or can be
    spread. *)
Inductive json : Type :=
| JNull
| JBool (b : bool)
| JNumber (x : float)
| JObject (names : list string).

(** A string held by AsyncStorage, seen through [JSON.parse]. *)
Inductive text (A : Type) : Type :=
| Blank                (* the empty string *)
| Stringified (a : A)  (* JSON.stringify a *)
| Foreign (v : json)   (* well-formed JSON of another shape *)
| Malformed.           (* not JSON at all *)
Arguments Blank {A}.
Arguments Stringified {A} a.
Arguments Foreign {A} v.
Arguments Malformed {A}.

(** What a variable declared with type [A] holds at run time: the result
    of [JSON.parse] is not checked against the declared type. *)
Inductive any (A : Type) : Type :=
| Shaped (a : A)
| Unshaped (v : json).
Arguments Shaped {A} a.
Arguments Unshaped {A} v.

Inductive error : Type :=
| StorageReadError
| StorageWriteError
| SyntaxError
| TypeError
| CatalogLookupError.

(** The state of a promise once it is settled. *)
Inductive settled (A : Type) : Type :=
| Fulfilled (a : A)
| Rejected (e : error).
Arguments Fulfilled {A} a.
Arguments Rejected {A} e.

(** The two keys the application uses, and the shape stored under each. *)
Inductive key : Type := Kwishlist | Kcart.

Definition shape (k : key) : Type :=
  match k with
  | Kwishlist => list Z
  | Kcart => list CartItem.t
  end.

Definition key_name (k : key) : string :=
  match k with
  | Kwishlist => "wishlist"
  | Kcart => "cart"
  end.

(** ** The world a handler runs in *)

Record AsyncStorage : Type := mkStorage
  { wishlist_entry : option (text (list Z));
    cart_entry : option (text (list CartItem.t)) }.

(** Whether the adapter currently rejects reads or writes. *)
Record Faults : Type := mkFaults
  { getItem_fails : bool;
    setItem_fails : bool }.

Record World : Type := mkWorld
  { storage : AsyncStorage;
    faults : Faults;
    catalog : Z -> option Product.t;          (* GET /products/{id} *)
    (* Cart screen *)
    cartItems : any (list CartItem.t);
    (* Shop screen *)
    wishlist : any (list Z);
    (* ProductDetails screen; params_id is Number(id) of the route *)
    params_id : Z;
    product : option Product.t;
    isInWishlist : bool;
    (* Wishlist screen *)
    wishlistItems : list Product.t;
    (* console.error and router.push *)
    console : list (string * error);
    route : list string }.

Definition with_storage (s : AsyncStorage) (w : World) : World :=
  mkWorld s (faults w) (catalog w) (cartItems w) (wishlist w) (params_id w)
          (product w) (isInWishlist w) (wishlistItems w) (console w) (route w).

Definition with_console (c : list (string * error)) (w : World) : World :=
  mkWorld (storage w) (faults w) (catalog w) (cartItems w) (wishlist w)
          (params_id w) (product w) (isInWishlist w) (wishlistItems w) c
          (route w).

Definition setCartItems (v : any (list CartItem.t)) (w : World) : World :=
  mkWorld (storage w) (faults w) (catalog w) v (wishlist w) (params_id w)
          (product w) (isInWishlist w) (wishlistItems w) (console w) (route w).

Definition setWishlist (v : any (list Z)) (w : World) : World :=
  mkWorld (storage w) (faults w) (catalog w) (cartItems w) v (params_id w)
          (product w) (isInWishlist w) (wishlistItems w) (console w) (route w).

Definition setProduct (p : option Product.t) (w : World) : World :=
  mkWorld (storage w) (faults w) (catalog w) (cartItems w) (wishlist w)
          (params_id w) p (isInWishlist w) (wishlistItems w) (console w)
          (route w).

Definition setIsInWishlist (b : bool) (w : World) : World :=
  mkWorld (storage w) (faults w) (catalog w) (cartItems w) (wishlist w)
          (params_id w) (product w) b (wishlistItems w) (console w) (route w).

Definition setWishlistItems (l : list Product.t) (w : World) : World :=
  mkWorld (storage w) (faults w) (catalog w) (cartItems w) (wishlist w)
          (params_id w) (product w) (isInWishlist w) l (console w) (route w).

Definition console_error (msg : string) (e : error) (w : World) : World :=
  with_console (console w ++ [(msg, e)]) w.

Definition router_push (path : string) (w : World) : World :=
  mkWorld (storage w) (faults w) (catalog w) (cartItems w) (wishlist w)
          (params_id w) (product w) (isInWishlist w) (wishlistItems w)
          (console w) (route w ++ [path]).

(** The adapter or the catalog starts to behave differently. *)
Definition with_environment (f : Faults) (c : Z -> option Product.t)
    (w : World) : World :=
  mkWorld (storage w) f c (cartItems w) (wishlist w) (params_id w)
          (product w) (isInWishlist w) (wishlistItems w) (console w) (route w).

(** A ProductDetails screen is mounted on the route of product [id]. *)
Definition mountProductDetails (id : Z) (w : World) : World :=
  mkWorld (storage w) (faults w) (catalog w) (cartItems w) (wishlist w) id
          None false (wishlistItems w) (console w) (route w).

(** [AsyncStorage.getItem] and [AsyncStorage.setItem], as the adapter
    answers them. *)
Definition entry (s : AsyncStorage) (k : key) : option (text (shape k)) :=
  match k with
  | Kwishlist => wishlist_entry s
  | Kcart => cart_entry s
  end.

Definition store (s : AsyncStorage) (k : key) : text (shape k) -> AsyncStorage :=
  match k with
  | Kwishlist => fun v => mkStorage (Some v) (cart_entry s)
  | Kcart => fun v => mkStorage (wishlist_entry s) (Some v)
  end.

Definition getItem (w : World) (k : key) : settled (option (text (shape k))) :=
  if getItem_fails (faults w) then Rejected StorageReadError
  else Fulfilled (entry (storage w) k).

Definition setItem (w : World) (k : key) (v : text (shape k)) : World * settled unit :=
  if setItem_fails (faults w) then (w, Rejected StorageWriteError)
  else (with_storage (store (storage w) k v) w, Fulfilled tt).

(** [axios.get] of one product, and [Promise.all] over settled promises:
    the array of all results, or the first rejection. *)
Definition fetch (w : World) (id : Z) : settled Product.t :=
  match catalog w id with
  | Some p => Fulfilled p
  | None => Rejected CatalogLookupError
  end.

Fixpoint Promise_all {A} (ps : list (settled A)) : settled (list A) :=
  match ps with
  | [] => Fulfilled []
  | Fulfilled a :: ps =>
      match Promise_all ps with
      | Fulfilled l => Fulfilled (a :: l)
      | Rejected e => Rejected e
      end
  | Rejected e :: _ => Rejected e
  end.

(** ** Asynchronous functions *)

(** The body of an [async] function: synchronous effects, and the points
    where it awaits the adapter or the catalog. *)
Inductive Async (A : Type) : Type :=
| Return (a : A)
| Throw (e : error)
| Sync (f : World -> World) (next : Async A)
| AwaitGetItem (k : key) (cont : settled (option (text (shape k))) -> Async A)
| AwaitSetItem (k : key) (v : text (shape k)) (cont : settled unit -> Async A)
| AwaitProduct (id : Z) (cont : settled Product.t -> Async A)
| AwaitAll (ids : list Z) (cont : settled (list Product.t) -> Async A).
Arguments Return {A} a.
Arguments Throw {A} e.
Arguments Sync {A} f next.
Arguments AwaitGetItem {A} k cont.
Arguments AwaitSetItem {A} k v cont.
Arguments AwaitProduct {A} id cont.
Arguments AwaitAll {A} ids cont.

Fixpoint bind {A B} (m : Async A) (f : A -> Async B) : Async B :=
  match m with
  | Return a => f a
  | Throw e => Throw e
  | Sync g next => Sync g (bind next f)
  | AwaitGetItem k cont => AwaitGetItem k (fun r => bind (cont r) f)
  | AwaitSetItem k v cont => AwaitSetItem k v (fun r => bind (cont r) f)
  | AwaitProduct id cont => AwaitProduct id (fun r => bind (cont r) f)
  | AwaitAll ids cont => AwaitAll ids (fun r => bind (cont r) f)
  end.

(** [try { body } catch (error) { handler }] *)
Fixpoint try_catch {A} (body : Async A) (handler : error -> Async A) : Async A :=
  match body with
  | Return a => Return a
  | Throw e => handler e
  | Sync g next => Sync g (try_catch next handler)
  | AwaitGetItem k cont => AwaitGetItem k (fun r => try_catch (cont r) handler)
  | AwaitSetItem k v cont => AwaitSetItem k v (fun r => try_catch (cont r) handler)
  | AwaitProduct id cont => AwaitProduct id (fun r => try_catch (cont r) handler)
  | AwaitAll ids cont => AwaitAll ids (fun r => try_catch (cont r) handler)
  end.

#[global] Instance Async_ret : MRet Async := fun A a => Return a.
#[global] Instance Async_bind : MBind Async := fun A B f m => bind m f.

(** A rejected promise throws at the [await]. *)
Definition unwrap {A} (r : settled A) : Async A :=
  match r with
  | Fulfilled a => Return a
  | Rejected e => Throw e
  end.

Definition await_getItem (k : key) : Async (option (text (shape k))) :=
  AwaitGetItem k unwrap.

Definition await_setItem (k : key) (v : text (shape k)) : Async unit :=
  AwaitSetItem k v unwrap.

(** [await axios.get(...)] for one product, and [await Promise.all(...)]
    over the lookups of a list of identifiers. *)
Definition await_product (id : Z) : Async Product.t :=
  AwaitProduct id unwrap.

Definition await_all (ids : list Z) : Async (list Product.t) :=
  AwaitAll ids unwrap.

(** A synchronous effect: a state setter, [console.error], [router.push]. *)
Definition perform (f : World -> World) : Async unit := Sync f (Return tt).

(** One call run to completion, nothing else running in between. *)
Fixpoint run {A} (m : Async A) (w : World) : World * settled A :=
  match m with
  | Return a => (w, Fulfilled a)
  | Throw e => (w, Rejected e)
  | Sync f next => run next (f w)
  | AwaitGetItem k cont => run (cont (getItem w k)) w
  | AwaitSetItem k v cont => let '(w', r) := setItem w k v in run (cont r) w'
  | AwaitProduct id cont => run (cont (fetch w id)) w
  | AwaitAll ids cont => run (cont (Promise_all (fetch w <$> ids))) w
  end.

(** The synchronous part of a call, up to its next [await]. *)
Fixpoint advance {A} (m : Async A) (w : World) : World * Async A :=
  match m with
  | Sync f next => advance next (f w)
  | _ => (w, m)
  end.

(** The adapter serves the pending request of a suspended call, and the
    call continues up to its next [await]. *)
Definition deliver {A} (m : Async A) (w : World) : World * Async A :=
  match m with
  | AwaitGetItem k cont => advance (cont (getItem w k)) w
  | AwaitSetItem k v cont => let '(w', r) := setItem w k v in advance (cont r) w'
  | AwaitProduct id cont => advance (cont (fetch w id)) w
  | AwaitAll ids cont => advance (cont (Promise_all (fetch w <$> ids))) w
  | _ => (w, m)
  end.

(** Calls in flight: [spawn] is the call itself, [resume i] lets the
    [i]-th call take its next turn, [schedule] is a sequence of turns. *)
Definition pool : Type := World * list (Async unit).

Definition spawn (m : Async unit) (s : pool) : pool :=
  let '(w', t) := advance m (fst s) in (w', snd s ++ [t]).

Definition resume (i : nat) (s : pool) : pool :=
  match snd s !! i with
  | Some t => let '(w', t') := deliver t (fst s) in (w', <[i := t']> (snd s))
  | None => s
  end.

Definition schedule (turns : list nat) (s : pool) : pool :=
  foldl (fun s i => resume i s) s turns.

Definition is_settled {A} (m : Async A) : bool :=
  match m with
  | Return _ | Throw _ => true
  | _ => false
  end.

(** ** JavaScript library functions *)

(** [if (data)]: [null] and the empty string are falsy. *)
Definition truthy {A} (data : option (text A)) : bool :=
  match data with
  | None | Some Blank => false
  | Some _ => true
  end.

(** [JSON.parse]: throws [SyntaxError] on a string that is not JSON;
    [JSON.parse(null)] is [null]. *)
Definition JSON_parse {A} (data : option (text A)) : Async (any A) :=
  match data with
  | None => Return (Unshaped JNull)
  | Some (Stringified a) => Return (Shaped a)
  | Some (Foreign v) => Return (Unshaped v)
  | Some Blank | Some Malformed => Throw SyntaxError
  end.

Definition JSON_stringify {A} (a : A) : text A := Stringified a.

(** The first array method called on a value that is not an array throws
    [TypeError]. *)
Definition array {A} (v : any (list A)) : Async (list A) :=
  match v with
  | Shaped l => Return l
  | Unshaped _ => Throw TypeError
  end.

(** [.filter(Boolean)] after a [.map] whose callback may return [null]. *)
Definition filter_Boolean {A} (l : list (option A)) : list A := omap id l.

(** A quantity as the binary64 number it is in JavaScript: the double
    nearest to the integer, ties to even, infinite from 2^1024 on. *)
Definition number (z : Z) : float :=
  SF2Prim (binary_normalize prec emax z 0 false).

(** ** The Cart screen *)
Module Cart.
Import CartItem.

Definition loadCart : Async unit :=
  try_catch
    (cartData ← await_getItem Kcart;
     if truthy cartData then
       parsed ← JSON_parse cartData;
       perform (setCartItems parsed)
     else Return tt)
    (fun error => perform (console_error "Error loading cart:" error)).

Definition updateCart (newCart : list CartItem.t) : Async unit :=
  try_catch
    (await_setItem Kcart (JSON_stringify newCart);;
     perform (setCartItems (Shaped newCart)))
    (fun error => perform (console_error "Error updating cart:" error)).

(** The [newCart] that [updateQuantity] computes. *)
Definition updateQuantity_newCart (cartItems : list CartItem.t) (id : Z)
    (increment : bool) : list CartItem.t :=
  filter_Boolean
    ((fun item =>
        if bool_decide (CartItem.id item = id) then
          let newQuantity :=
            if increment then quantity item + 1 else quantity item - 1 in
          if bool_decide (newQuantity < 1) then None
          else Some (with_quantity item newQuantity)
        else Some item)
     <$> cartItems).

Definition updateQuantity (cartItems : list CartItem.t) (id : Z)
    (increment : bool) : Async unit :=
  let newCart := updateQuantity_newCart cartItems id increment in
  updateCart newCart.

(** The two buttons of the confirmation alert. *)
Inductive AlertButton : Type := Cancel | Remove.

Definition removeItem (cartItems : list CartItem.t) (id : Z)
    (pressed : AlertButton) : Async unit :=
  match pressed with
  | Cancel => Return tt
  | Remove =>
      let newCart := filter (fun item => CartItem.id item ≠ id) cartItems in
      updateCart newCart
  end.

Definition getTotalPrice (cartItems : list CartItem.t) : float :=
  foldl (fun total item => (total + price item * number (quantity item))%float)
        0%float cartItems.
End Cart.

(** ** The Shop screen *)
Module Shop.
Definition loadWishlist : Async unit :=
  try_catch
    (wishlistData ← await_getItem Kwishlist;
     if truthy wishlistData then
       parsed ← JSON_parse wishlistData;
       perform (setWishlist parsed)
     else Return tt)
    (fun error => perform (console_error "Error loading wishlist:" error)).

Definition toggleWishlist (wishlist : list Z) (productId : Z) : Async unit :=
  try_catch
    (let newWishlist :=
       if bool_decide (productId ∈ wishlist)
       then filter (fun id => id ≠ productId) wishlist
       else wishlist ++ [productId] in
     perform (setWishlist (Shaped newWishlist));;
     await_setItem Kwishlist (JSON_stringify newWishlist))
    (fun error => perform (console_error "Error updating wishlist:" error)).
End Shop.

(** [{ ...product, quantity: 1 }], on the fields [CartItem] declares. *)
Definition line_item (product : Product.t) : CartItem.t :=
  CartItem.mk (Product.id product) (Product.title product)
              (Product.price product) (Product.image product) 1.

(** ** The ProductDetails screen; [id] is [Number(id)] of the route. *)
Module ProductDetails.
Definition fetchProduct (id : Z) : Async unit :=
  try_catch
    (response ← await_product id;
     perform (setProduct (Some response)))
    (fun error => perform (console_error "Error fetching product:" error)).

Definition checkWishlist (id : Z) : Async unit :=
  try_catch
    (wishlistData ← await_getItem Kwishlist;
     if truthy wishlistData then
       parsed ← JSON_parse wishlistData;
       wishlist ← array parsed;
       perform (setIsInWishlist (bool_decide (id ∈ wishlist)))
     else Return tt)
    (fun error => perform (console_error "Error checking wishlist:" error)).

Definition toggleWishlist (id : Z) (isInWishlist : bool) : Async unit :=
  try_catch
    (wishlistData ← await_getItem Kwishlist;
     wishlist ← (if truthy wishlistData then JSON_parse wishlistData
                 else Return (Shaped []));
     (if isInWishlist then
        wishlist ← array wishlist;
        let newWishlist := filter (fun itemId => itemId ≠ id) wishlist in
        await_setItem Kwishlist (JSON_stringify newWishlist)
      else
        wishlist ← array wishlist;
        await_setItem Kwishlist (JSON_stringify (wishlist ++ [id])));;
     perform (setIsInWishlist (negb isInWishlist)))
    (fun error => perform (console_error "Error updating wishlist:" error)).

Definition addToCart (product : option Product.t) : Async unit :=
  match product with
  | None => Return tt
  | Some product =>
      try_catch
        (cartData ← await_getItem Kcart;
         parsed ← (if truthy cartData then JSON_parse cartData
                   else Return (Shaped []));
         cart ← array parsed;
         let existingItem :=
           list_find (fun item => CartItem.id item = Product.id product) cart in
         let cart :=
           match existingItem with
           | Some (i, _) =>
               alter (fun item =>
                        CartItem.with_quantity item (CartItem.quantity item + 1))
                     i cart
           | None =>
               cart ++ [CartItem.mk (Product.id product) (Product.title product)
                                    (Product.price product) (Product.image product) 1]
           end in
         await_setItem Kcart (JSON_stringify cart);;
         perform (router_push "/cart"))
        (fun error => perform (console_error "Error adding to cart:" error))
  end.
End ProductDetails.

(** ** The Wishlist screen *)
Module Wishlist.
Definition loadWishlist : Async unit :=
  try_catch
    (wishlistData ← await_getItem Kwishlist;
     if truthy wishlistData then
       parsed ← JSON_parse wishlistData;
       wishlistIds ← array parsed;
       products ← await_all wishlistIds;
       perform (setWishlistItems products)
     else Return tt)
    (fun error => perform (console_error "Error loading wishlist:" error)).

Definition removeFromWishlist (wishlistItems : list Product.t)
    (productId : Z) : Async unit :=
  try_catch
    (wishlistData ← await_getItem Kwishlist;
     if truthy wishlistData then
       parsed ← JSON_parse wishlistData;
       wishlistIds ← array parsed;
       let newWishlistIds := filter (fun id => id ≠ productId) wishlistIds in
       await_setItem Kwishlist (JSON_stringify newWishlistIds);;
       perform (setWishlistItems
             (filter (fun item => Product.id item ≠ productId) wishlistItems))
     else Return tt)
    (fun error => perform (console_error "Error removing from wishlist:" error)).

Definition addToCart (product : Product.t) : Async unit :=
  try_catch
    (cartData ← await_getItem Kcart;
     parsed ← (if truthy cartData then JSON_parse cartData
               else Return (Shaped []));
     cart ← array parsed;
     let existingItem :=
       list_find (fun item => CartItem.id item = Product.id product) cart in
     let cart :=
       match existingItem with
       | Some (i, _) =>
           alter (fun item =>
                    CartItem.with_quantity item (CartItem.quantity item + 1))
                 i cart
       | None => cart ++ [line_item product]
       end in
     await_setItem Kcart (JSON_stringify cart);;
     perform (router_push "/cart"))
    (fun error => perform (console_error "Error adding to cart:" error)).
End Wishlist.

(** ** The application as a whole *)

(** What happens between two renders: a screen is mounted and runs its
    effect, the user presses a button, or the environment changes.  A
    handler closes over the state of the render it belongs to.  A screen
    whose list is not an array throws while rendering, so it offers no
    button; the buttons of ProductDetails exist once the product is
    loaded. *)
Inductive event : Type :=
| Environment (f : Faults) (c : Z -> option Product.t)
| MountCart
| PressQuantity (id : Z) (increment : bool)
| PressTrash (id : Z) (pressed : Cart.AlertButton)
| MountShop
| PressHeartInShop (productId : Z)
| OpenProduct (id : Z)
| PressHeartInDetails
| PressAddToCartInDetails
| MountWishlist
| PressHeartInWishlist (productId : Z)
| PressCartInWishlist (i : nat).

Definition handle (e : event) (w : World) : World :=
  match e with
  | Environment f c => with_environment f c w
  | MountCart => fst (run Cart.loadCart (setCartItems (Shaped []) w))
  | PressQuantity id increment =>
      match cartItems w with
      | Shaped l => fst (run (Cart.updateQuantity l id increment) w)
      | Unshaped _ => w
      end
  | PressTrash id pressed =>
      match cartItems w with
      | Shaped l => fst (run (Cart.removeItem l id pressed) w)
      | Unshaped _ => w
      end
  | MountShop => fst (run Shop.loadWishlist (setWishlist (Shaped []) w))
  | PressHeartInShop productId =>
      match wishlist w with
      | Shaped l => fst (run (Shop.toggleWishlist l productId) w)
      | Unshaped _ => w
      end
  | OpenProduct id =>
      let w := mountProductDetails id w in
      let w := fst (run (ProductDetails.fetchProduct id) w) in
      fst (run (ProductDetails.checkWishlist id) w)
  | PressHeartInDetails =>
      match product w with
      | Some _ =>
          fst (run (ProductDetails.toggleWishlist (params_id w) (isInWishlist w)) w)
      | None => w
      end
  | PressAddToCartInDetails =>
      match product w with
      | Some _ => fst (run (ProductDetails.addToCart (product w)) w)
      | None => w
      end
  | MountWishlist => fst (run Wishlist.loadWishlist (setWishlistItems [] w))
  | PressHeartInWishlist productId =>
      fst (run (Wishlist.removeFromWishlist (wishlistItems w) productId) w)
  | PressCartInWishlist i =>
      match wishlistItems w !! i with
      | Some p => fst (run (Wishlist.addToCart p) w)
      | None => w
      end
  end.

(** A fresh installation: nothing stored, nothing mounted. *)
Definition initial : World :=
  mkWorld (mkStorage None None) (mkFaults false false) (fun _ => None)
          (Shaped []) (Shaped []) 0 None false [] [] [].

(** The states the application reaches when events are handled one at a
    time, each call running to completion before the next event. *)
Inductive reachable : World -> Prop :=
| reachable_initial : reachable initial
| reachable_handle e w : reachable w -> reachable (handle e w).

(** The mutating operations of the two stores, each with the state its
    handler closes over. *)
Inductive mutation : Type :=
| Cart_updateQuantity (cartItems : list CartItem.t) (id : Z) (increment : bool)
| Cart_removeItem (cartItems : list CartItem.t) (id : Z)
| Shop_toggleWishlist (wishlist : list Z) (productId : Z)
| Details_toggleWishlist (id : Z) (isInWishlist : bool)
| Details_addToCart (product : Product.t)
| Wishlist_removeFromWishlist (wishlistItems : list Product.t) (productId : Z)
| Wishlist_addToCart (product : Product.t).

Definition call (m : mutation) : Async unit :=
  match m with
  | Cart_updateQuantity l id increment => Cart.updateQuantity l id increment
  | Cart_removeItem l id => Cart.removeItem l id Cart.Remove
  | Shop_toggleWishlist l productId => Shop.toggleWishlist l productId
  | Details_toggleWishlist id b => ProductDetails.toggleWishlist id b
  | Details_addToCart p => ProductDetails.addToCart (Some p)
  | Wishlist_removeFromWishlist l productId => Wishlist.removeFromWishlist l productId
  | Wishlist_addToCart p => Wishlist.addToCart p
  end.


(** ** Vocabulary of the properties *)

(** What every handler's [catch] block does: the error goes to the
    console and the promise of the call is fulfilled. *)
Definition caught (msg : string) (e : error) (w : World) : World * settled unit :=
  (console_error msg e w, Fulfilled tt).

(** The write of a record [a] under key [k] when the adapter accepts it. *)
Definition written (k : key) (a : shape k) (w : World) : World :=
  with_storage (store (storage w) k (Stringified a)) w.

(** The [newWishlist] of Shop's [toggleWishlist]. *)
Definition toggled (productId : Z) (wishlist : list Z) : list Z :=
  if bool_decide (productId ∈ wishlist)
  then filter (fun id => id ≠ productId) wishlist
  else wishlist ++ [productId].

(** The cart that both [addToCart] handlers write back, as a function of
    the cart they read. *)
Definition addOrIncrement (product : Product.t) (cart : list CartItem.t)
    : list CartItem.t :=
  match list_find (fun item => CartItem.id item = Product.id product) cart with
  | Some (i, _) =>
      alter (fun item => CartItem.with_quantity item (CartItem.quantity item + 1))
            i cart
  | None => cart ++ [line_item product]
  end.
#[global] Arguments addOrIncrement : simpl never.

(** The contract of [addOrIncrement] in the words of the specification:
    the first line item with the product's id gains one unit and nothing
    is added, or, when there is none, a line item of quantity 1 with the
    product's id, title, price and image is appended at the end. *)
Inductive addOrIncrement_spec (product : Product.t)
    : list CartItem.t -> list CartItem.t -> Prop :=
| spec_increment before item after :
    Forall (fun other => CartItem.id other ≠ Product.id product) before ->
    CartItem.id item = Product.id product ->
    addOrIncrement_spec product
      (before ++ item :: after)
      (before ++ CartItem.mk (CartItem.id item) (CartItem.title item)
                             (CartItem.price item) (CartItem.image item)
                             (CartItem.quantity item + 1) :: after)
| spec_append cart :
    Forall (fun other => CartItem.id other ≠ Product.id product) cart ->
    addOrIncrement_spec product cart
      (cart ++ [CartItem.mk (Product.id product) (Product.title product)
                            (Product.price product) (Product.image product) 1]).

(** The record a store reads back from an entry it wrote itself. *)
Definition stored {A} (e : option (text (list A))) : option (list A) :=
  match e with
  | None | Some Blank => Some []
  | Some (Stringified l) => Some l
  | Some (Foreign _) | Some Malformed => None
  end.

Definition stored_cart (w : World) : option (list CartItem.t) :=
  stored (cart_entry (storage w)).

Definition stored_wishlist (w : World) : option (list Z) :=
  stored (wishlist_entry (storage w)).

(** The quantity persisted for a product, if it has a line item. *)
Definition quantity_of (id : Z) (cart : list CartItem.t) : option Z :=
  CartItem.quantity <$> head (filter (fun item => CartItem.id item = id) cart).

Definition stored_quantity (id : Z) (w : World) : option Z :=
  stored_cart w ≫= quantity_of id.

(** Two calls of ProductDetails' [addToCart] issued one right after the
    other, neither awaited. *)
Definition two_calls (p : Product.t) (w : World) : pool :=
  spawn (ProductDetails.addToCart (Some p))
        (spawn (ProductDetails.addToCart (Some p)) (w, [])).

Definition ids (cart : list CartItem.t) : list Z := CartItem.id <$> cart.

(** The two invariants of a cart record. *)
Definition unique_ids (cart : list CartItem.t) : Prop := NoDup (ids cart).

Definition positive_quantities (cart : list CartItem.t) : Prop :=
  Forall (fun item => 1 ≤ CartItem.quantity item) cart.

Definition cart_invariant (w : World) : Prop :=
  (exists l, stored_cart w = Some l /\ unique_ids l /\ positive_quantities l) /\
  (exists l, cartItems w = Shaped l /\ unique_ids l /\ positive_quantities l).

(** The rational number a binary64 value stands for. *)
Definition float_value (x : float) : option Q :=
  match Prim2SF x with
  | S754_zero _ => Some 0%Q
  | S754_finite s m e =>
      let v := (inject_Z (Zpos m) * Qpower 2 e)%Q in
      Some (if s then Qopp v else v)
  | S754_infinity _ | S754_nan => None
  end.

(** The sum of price × quantity in exact arithmetic. *)
Fixpoint exact_total (cart : list CartItem.t) : option Q :=
  match cart with
  | [] => Some 0%Q
  | item :: rest =>
      p ← float_value (CartItem.price item);
      t ← exact_total rest;
      Some (p * inject_Z (CartItem.quantity item) + t)%Q
  end.

(** The total agrees with the exact sum to within half a cent, which is
    what two displayed decimals can tell apart. *)
Definition within_display_precision (cart : list CartItem.t) : Prop :=
  exists shown exact,
    float_value (Cart.getTotalPrice cart) = Some shown /\
    exact_total cart = Some exact /\
    (Qabs (shown - exact) < 5 # 1000)%Q.


(** C8 as the specification words it: the hydrated list is the products
    of the stored ids whose lookup succeeds. *)
Definition hydrates_tolerantly (w : World) : Prop :=
  forall wishlistIds,
    stored_wishlist w = Some wishlistIds ->
    wishlistItems (fst (run Wishlist.loadWishlist w)) = omap (catalog w) wishlistIds.

(** C9 as the specification words it: whatever is stored that is not a
    record of the expected shape, a screen mounted on it shows the empty
    collection. *)
Definition has_expected_shape {A} (e : option (text (list A))) : bool :=
  match e with
  | Some (Stringified _) => true
  | _ => false
  end.

(** Nothing stored, or a string on which [JSON.parse] throws. *)
Definition unreadable {A} (e : option (text (list A))) : bool :=
  match e with
  | None | Some Blank | Some Malformed => true
  | Some (Stringified _) | Some (Foreign _) => false
  end.

Definition recovers_to_empty (w : World) : Prop :=
  (has_expected_shape (cart_entry (storage w)) = false ->
   cartItems (handle MountCart w) = Shaped []) /\
  (has_expected_shape (wishlist_entry (storage w)) = false ->
   wishlist (handle MountShop w) = Shaped []).


(** [number z] stands for exactly the integer [z]. *)
Definition exact_number (z : Z) : bool :=
  match float_value (number z) with
  | Some q => Qeq_bool q (inject_Z z)
  | None => false
  end.

(** ** Sample data *)

Definition healthy : Faults := mkFaults false false.
Definition failing_writes : Faults := mkFaults false true.
Definition failing_reads : Faults := mkFaults true false.

(** A catalog that knows every product but number 2. *)
Definition sample_product (id : Z) : Product.t :=
  Product.mk id "A" 10%float "d" "c" "u".

Definition sample_catalog (id : Z) : option Product.t :=
  if bool_decide (id = 2) then None else Some (sample_product id).

Definition sample_item (id quantity : Z) : CartItem.t :=
  CartItem.mk id "A" 10%float "u" quantity.

(** Replaying a sequence of events from a given state. *)
Definition replay (events : list event) (w : World) : World :=
  foldl (fun w e => handle e w) w events.

(** One unit of product 1 in the cart, the Cart screen mounted on it. *)
Definition one_in_cart : World :=
  replay [Environment healthy sample_catalog; OpenProduct 1;
          PressAddToCartInDetails; MountCart] initial.



(** The same state once the adapter starts to reject writes. *)
Definition stalled_cart : World :=
  with_environment failing_writes sample_catalog one_in_cart.

(** The same state once the adapter starts to reject reads. *)
Definition stalled_reads : World :=
  with_environment failing_reads sample_catalog one_in_cart.

(** Products 1 and 2 on the wishlist; the catalog has lost product 2. *)
Definition two_wishes : World :=
  replay [Environment healthy sample_catalog; MountShop;
          PressHeartInShop 1; PressHeartInShop 2] initial.

(** Products 1 and 3 on the wishlist, both in the catalog. *)
Definition good_wishes : World :=
  replay [Environment healthy sample_catalog; MountShop;
          PressHeartInShop 1; PressHeartInShop 3] initial.

(** The cart key holds the JSON text [null]. *)
Definition null_cart : World :=
  with_storage (mkStorage None (Some (Foreign JNull))) initial.

(** Product 5 is put on the wishlist from its details screen; the screen
    is opened again while the adapter rejects reads, so [checkWishlist]
    leaves [isInWishlist] at [false]. *)
Definition stale_flag : list event :=
  [Environment healthy sample_catalog; OpenProduct 5; PressHeartInDetails;
   Environment failing_reads sample_catalog; OpenProduct 5;
   Environment healthy sample_catalog].

(** A cart whose total needs more than 53 bits. *)
Definition large_cart : list CartItem.t :=
  [CartItem.mk 1 "A" 1e16%float "u" 1; CartItem.mk 2 "B" 1%float "v" 1].

(** ** The Shop screen: catalogue, search and category filter *)

(** The rest of the state of the Shop screen.  Strings are sequences of
    8-bit characters; [errors] is what the screen sends to
    [console.error]. *)
Record ShopView : Type := mkShopView
  { products : list Product.t;
    filteredProducts : list Product.t;
    loading : bool;
    searchQuery : string;
    selectedCategory : string;
    categories : list string;
    errors : list (string * error) }.

(** The state the screen is created with. *)
Definition shop_created : ShopView := mkShopView [] [] true "" "all" [] [].

Definition setProducts (l : list Product.t) (v : ShopView) : ShopView :=
  mkShopView l (filteredProducts v) (loading v) (searchQuery v)
             (selectedCategory v) (categories v) (errors v).

Definition setFilteredProducts (l : list Product.t) (v : ShopView) : ShopView :=
  mkShopView (products v) l (loading v) (searchQuery v) (selectedCategory v)
             (categories v) (errors v).

Definition setLoading (b : bool) (v : ShopView) : ShopView :=
  mkShopView (products v) (filteredProducts v) b (searchQuery v)
             (selectedCategory v) (categories v) (errors v).

Definition setSearchQuery (q : string) (v : ShopView) : ShopView :=
  mkShopView (products v) (filteredProducts v) (loading v) q
             (selectedCategory v) (categories v) (errors v).

Definition setSelectedCategory (c : string) (v : ShopView) : ShopView :=
  mkShopView (products v) (filteredProducts v) (loading v) (searchQuery v) c
             (categories v) (errors v).

Definition setCategories (l : list string) (v : ShopView) : ShopView :=
  mkShopView (products v) (filteredProducts v) (loading v) (searchQuery v)
             (selectedCategory v) l (errors v).

Definition shop_console_error (msg : string) (e : error) (v : ShopView) : ShopView :=
  mkShopView (products v) (filteredProducts v) (loading v) (searchQuery v)
             (selectedCategory v) (categories v) (errors v ++ [(msg, e)]).

(** [s.includes(searchString)] *)
Fixpoint includes (searchString s : string) : bool :=
  String.prefix searchString s ||
  match s with
  | EmptyString => false
  | String _ rest => includes searchString rest
  end.

(** [fetchProducts], given how the request to [/products] settles. *)
Definition fetchProducts (response : settled (list Product.t)) (v : ShopView)
    : ShopView :=
  match response with
  | Fulfilled data =>
      setLoading false (setFilteredProducts data (setProducts data v))
  | Rejected error =>
      setLoading false (shop_console_error "Error fetching products:" error v)
  end.

(** [fetchCategories], given how the request to [/products/categories]
    settles. *)
Definition fetchCategories (response : settled (list string)) (v : ShopView)
    : ShopView :=
  match response with
  | Fulfilled data => setCategories ("all" :: data) v
  | Rejected error => shop_console_error "Error fetching categories:" error v
  end.

Section Search.
(** [String.prototype.toLowerCase] is a parameter of the model. *)
Variable toLowerCase : string -> string.

(** The effect that depends on [searchQuery], [selectedCategory] and
    [products]. *)
Definition filterEffect (v : ShopView) : ShopView :=
  let filtered := products v in
  let filtered :=
    if bool_decide (selectedCategory v ≠ "all")
    then filter (fun product => Product.category product = selectedCategory v)
                filtered
    else filtered in
  let filtered :=
    if bool_decide (searchQuery v ≠ "")
    then filter (fun product =>
                   includes (toLowerCase (searchQuery v))
                            (toLowerCase (Product.title product)) = true)
                filtered
    else filtered in
  setFilteredProducts filtered v.

(** What happens to a mounted Shop screen: a request settles, the user
    types in the search box, or presses one of the category buttons.
    The box and the buttons exist once [loading] is false, and there is
    one button per element of [categories]. *)
Inductive shop_event : Type :=
| ProductsResponse (response : settled (list Product.t))
| CategoriesResponse (response : settled (list string))
| ChangeText (text : string)
| PressCategory (item : string).

(** The handler of the event, then the effect when one of its
    dependencies has changed. *)
Definition shop_handle (e : shop_event) (v : ShopView) : ShopView :=
  match e with
  | ProductsResponse response =>
      match response with
      | Fulfilled _ => filterEffect (fetchProducts response v)
      | Rejected _ => fetchProducts response v
      end
  | CategoriesResponse response => fetchCategories response v
  | ChangeText text =>
      if loading v then v
      else if bool_decide (text = searchQuery v) then v
      else filterEffect (setSearchQuery text v)
  | PressCategory item =>
      if loading v then v
      else if bool_decide (item ∈ categories v) then
        if bool_decide (item = selectedCategory v) then v
        else filterEffect (setSelectedCategory item v)
      else v
  end.

(** The screen is created, its effects run, and events follow. *)
Definition shop_replay (events : list shop_event) : ShopView :=
  foldl (fun v e => shop_handle e v) (filterEffect shop_created) events.

(** A product is listed under the current category and query. *)
Definition listed (v : ShopView) (product : Product.t) : Prop :=
  (selectedCategory v = "all" \/ Product.category product = selectedCategory v) /\
  (searchQuery v = "" \/
   includes (toLowerCase (searchQuery v)) (toLowerCase (Product.title product)) = true).
End Search.

#[global] Instance listed_dec (toLowerCase : string -> string) (v : ShopView)
    (product : Product.t) : Decision (listed toLowerCase v product).
Proof. unfold listed. apply _. Defined.

(** A lower-casing of the letters A to Z, to try the search on. *)
Fixpoint ascii_lower (s : string) : string :=
  match s with
  | EmptyString => EmptyString
  | String c rest =>
      let n := Ascii.nat_of_ascii c in
      String (if ((65 <=? n) && (n <=? 90))%nat then Ascii.ascii_of_nat (n + 32) else c)
             (ascii_lower rest)
  end.

Definition sample_shirt : Product.t :=
  Product.mk 1 "Cotton Shirt" 10%float "d" "clothing" "u".
Definition sample_ring : Product.t :=
  Product.mk 2 "Gold Ring" 10%float "d" "jewelery" "u".
Definition sample_skirt : Product.t :=
  Product.mk 3 "Silk Skirt" 10%float "d" "clothing" "u".

(** ** Every asynchronous handler *)

Inductive handler : Type :=
| Cart_loadCart
| Cart_updateCart (newCart : list CartItem.t)
| Cart_removeItem_pressed (cartItems : list CartItem.t) (id : Z)
    (pressed : Cart.AlertButton)
| Shop_loadWishlist
| Details_fetchProduct (id : Z)
| Details_checkWishlist (id : Z)
| Details_addToCart_of (product : option Product.t)
| Wishlist_loadWishlist
| Mutation (m : mutation).

Definition body (h : handler) : Async unit :=
  match h with
  | Cart_loadCart => Cart.loadCart
  | Cart_updateCart newCart => Cart.updateCart newCart
  | Cart_removeItem_pressed l id pressed => Cart.removeItem l id pressed
  | Shop_loadWishlist => Shop.loadWishlist
  | Details_fetchProduct id => ProductDetails.fetchProduct id
  | Details_checkWishlist id => ProductDetails.checkWishlist id
  | Details_addToCart_of product => ProductDetails.addToCart product
  | Wishlist_loadWishlist => Wishlist.loadWishlist
  | Mutation m => call m
  end.

(** What a call may leave behind: its promise is fulfilled, and either
    the console is as it was, or it has one more entry and then neither
    the storage nor the route has changed. *)
Definition quiet (w : World) (r : World * settled unit) : Prop :=
  snd r = Fulfilled tt /\
  (console (fst r) = console w \/
   exists msg e, console (fst r) = console w ++ [(msg, e)] /\
                 storage (fst r) = storage w /\ route (fst r) = route w).

(** The key an event may write, if any. *)
Definition written_key (e : event) : option key :=
  match e with
  | PressQuantity _ _ | PressTrash _ _ | PressAddToCartInDetails
  | PressCartInWishlist _ => Some Kcart
  | PressHeartInShop _ | PressHeartInDetails | PressHeartInWishlist _ =>
      Some Kwishlist
  | Environment _ _ | MountCart | MountShop | OpenProduct _ | MountWishlist =>
      None
  end.

(** The Cart screen is mounted on product 1; then the details of product
    3 are opened. *)
Definition cart_behind_details : World :=
  replay [Environment healthy sample_catalog; OpenProduct 1;
          PressAddToCartInDetails; MountCart; OpenProduct 3] initial.

(** The Shop screen is mounted and product 1 put on the wishlist there;
    then the details of product 3 are opened. *)
Definition shop_behind_details : World :=
  replay [Environment healthy sample_catalog; MountShop; PressHeartInShop 1;
          OpenProduct 3] initial.

(** The Wishlist screen mounted on products 1 and 3. *)
Definition wishes_shown : World := handle MountWishlist good_wishes.

(** * Properties *)

(** ** How calls run *)

Lemma run_bind {A B} (m : Async A) (f : A -> Async B) (w : World) :
  run (m ≫= f) w =
    match run m w with
    | (w', Fulfilled a) => run (f a) w'
    | (w', Rejected e) => (w', Rejected e)
    end.
Proof.
  revert w.
  induction m as [a|e|g next IH|k cont IH|k v cont IH|i cont IH|l cont IH];
    intros w; cbn; try done; try destruct (setItem _ _ _); apply IH.
Qed.

Lemma run_try_catch {A} (m : Async A) (h : error -> Async A) (w : World) :
  run (try_catch m h) w =
    match run m w with
    | (w', Fulfilled a) => (w', Fulfilled a)
    | (w', Rejected e) => run (h e) w'
    end.
Proof.
  revert w.
  induction m as [a|e|g next IH|k cont IH|k v cont IH|i cont IH|l cont IH];
    intros w; cbn; try done; try destruct (setItem _ _ _); apply IH.
Qed.

Lemma schedule_cons (i : nat) (turns : list nat) (s : pool) :
  schedule (i :: turns) s = schedule turns (resume i s).
Proof. reflexivity. Qed.

Lemma resume_alone (t : Async unit) (w : World) :
  resume 0 (w, [t]) = (fst (deliver t w), [snd (deliver t w)]).
Proof. unfold resume. cbn. by destruct (deliver t w). Qed.

(** Running a call to completion is giving it every turn. *)
Lemma run_is_a_schedule (m : Async unit) (w : World) :
  exists n : nat,
    schedule (replicate n 0%nat) (spawn m (w, [])) =
      (fst (run m w), [unwrap (snd (run m w))]).
Proof.
  unfold spawn. cbn [fst snd app].
  revert w.
  induction m as [a|e|g next IH|k cont IH|k v cont IH|i cont IH|l cont IH];
    intros w; cbn [advance run].
  - by exists 0%nat.
  - by exists 0%nat.
  - apply IH.
  - destruct (IH (getItem w k) w) as [n Hn]. exists (S n).
    cbn [replicate]. rewrite schedule_cons, resume_alone. cbn [deliver].
    by destruct (advance (cont (getItem w k)) w).
  - destruct (setItem w k v) as [w' r] eqn:E.
    destruct (IH r w') as [n Hn]. exists (S n).
    cbn [replicate]. rewrite schedule_cons, resume_alone. cbn [deliver].
    rewrite E. by destruct (advance (cont r) w').
  - destruct (IH (fetch w i) w) as [n Hn]. exists (S n).
    cbn [replicate]. rewrite schedule_cons, resume_alone. cbn [deliver].
    by destruct (advance (cont (fetch w i)) w).
  - destruct (IH (Promise_all (fetch w <$> l)) w) as [n Hn]. exists (S n).
    cbn [replicate]. rewrite schedule_cons, resume_alone. cbn [deliver].
    by destruct (advance (cont (Promise_all (fetch w <$> l))) w).
Qed.

(** ** What each handler does, case by case *)

Lemma run_loadCart (w : World) :
  run Cart.loadCart w =
    if getItem_fails (faults w) then caught "Error loading cart:" StorageReadError w
    else match cart_entry (storage w) with
         | None | Some Blank => (w, Fulfilled tt)
         | Some (Stringified l) => (setCartItems (Shaped l) w, Fulfilled tt)
         | Some (Foreign v) => (setCartItems (Unshaped v) w, Fulfilled tt)
         | Some Malformed => caught "Error loading cart:" SyntaxError w
         end.
Proof.
  unfold Cart.loadCart, caught. cbn. unfold getItem.
  destruct (getItem_fails (faults w)); [done|]. cbn.
  by destruct (cart_entry (storage w)) as [[|l|v|]|].
Qed.

Lemma run_updateCart (newCart : list CartItem.t) (w : World) :
  run (Cart.updateCart newCart) w =
    if setItem_fails (faults w) then caught "Error updating cart:" StorageWriteError w
    else (setCartItems (Shaped newCart) (written Kcart newCart w), Fulfilled tt).
Proof.
  unfold Cart.updateCart, caught. cbn. unfold setItem.
  by destruct (setItem_fails (faults w)).
Qed.

Lemma run_Shop_loadWishlist (w : World) :
  run Shop.loadWishlist w =
    if getItem_fails (faults w) then caught "Error loading wishlist:" StorageReadError w
    else match wishlist_entry (storage w) with
         | None | Some Blank => (w, Fulfilled tt)
         | Some (Stringified l) => (setWishlist (Shaped l) w, Fulfilled tt)
         | Some (Foreign v) => (setWishlist (Unshaped v) w, Fulfilled tt)
         | Some Malformed => caught "Error loading wishlist:" SyntaxError w
         end.
Proof.
  unfold Shop.loadWishlist, caught. cbn. unfold getItem.
  destruct (getItem_fails (faults w)); [done|]. cbn.
  by destruct (wishlist_entry (storage w)) as [[|l|v|]|].
Qed.

Lemma run_Shop_toggleWishlist (l : list Z) (productId : Z) (w : World) :
  run (Shop.toggleWishlist l productId) w =
    if setItem_fails (faults w)
    then caught "Error updating wishlist:" StorageWriteError
           (setWishlist (Shaped (toggled productId l)) w)
    else (written Kwishlist (toggled productId l)
            (setWishlist (Shaped (toggled productId l)) w),
          Fulfilled tt).
Proof.
  unfold Shop.toggleWishlist, caught. cbn. unfold setItem. cbn.
  by destruct (setItem_fails (faults w)).
Qed.

Lemma run_fetchProduct (id : Z) (w : World) :
  run (ProductDetails.fetchProduct id) w =
    match catalog w id with
    | Some p => (setProduct (Some p) w, Fulfilled tt)
    | None => caught "Error fetching product:" CatalogLookupError w
    end.
Proof.
  unfold ProductDetails.fetchProduct, caught. cbn. unfold fetch.
  by destruct (catalog w id).
Qed.

Lemma run_checkWishlist (id : Z) (w : World) :
  run (ProductDetails.checkWishlist id) w =
    if getItem_fails (faults w)
    then caught "Error checking wishlist:" StorageReadError w
    else match wishlist_entry (storage w) with
         | None | Some Blank => (w, Fulfilled tt)
         | Some (Stringified l) =>
             (setIsInWishlist (bool_decide (id ∈ l)) w, Fulfilled tt)
         | Some (Foreign v) => caught "Error checking wishlist:" TypeError w
         | Some Malformed => caught "Error checking wishlist:" SyntaxError w
         end.
Proof.
  unfold ProductDetails.checkWishlist, caught. cbn. unfold getItem.
  destruct (getItem_fails (faults w)); [done|]. cbn.
  by destruct (wishlist_entry (storage w)) as [[|l|v|]|].
Qed.

Lemma run_Details_toggleWishlist (id : Z) (b : bool) (w : World) :
  run (ProductDetails.toggleWishlist id b) w =
    if getItem_fails (faults w)
    then caught "Error updating wishlist:" StorageReadError w
    else match wishlist_entry (storage w) with
         | Some (Foreign _) => caught "Error updating wishlist:" TypeError w
         | Some Malformed => caught "Error updating wishlist:" SyntaxError w
         | e =>
             let l := default [] (stored e) in
             let newWishlist :=
               if b then filter (fun itemId => itemId ≠ id) l else l ++ [id] in
             if setItem_fails (faults w)
             then caught "Error updating wishlist:" StorageWriteError w
             else (setIsInWishlist (negb b) (written Kwishlist newWishlist w),
                   Fulfilled tt)
         end.
Proof.
  unfold ProductDetails.toggleWishlist, caught. cbn. unfold getItem.
  destruct (getItem_fails (faults w)); [done|]. cbn.
  destruct (wishlist_entry (storage w)) as [[|l|v|]|]; cbn; try done;
    destruct b; cbn; unfold setItem; by destruct (setItem_fails (faults w)).
Qed.

Lemma run_Details_addToCart (p : Product.t) (w : World) :
  run (ProductDetails.addToCart (Some p)) w =
    if getItem_fails (faults w)
    then caught "Error adding to cart:" StorageReadError w
    else match cart_entry (storage w) with
         | Some (Foreign _) => caught "Error adding to cart:" TypeError w
         | Some Malformed => caught "Error adding to cart:" SyntaxError w
         | e =>
             let cart := addOrIncrement p (default [] (stored e)) in
             if setItem_fails (faults w)
             then caught "Error adding to cart:" StorageWriteError w
             else (router_push "/cart" (written Kcart cart w), Fulfilled tt)
         end.
Proof.
  unfold ProductDetails.addToCart, caught. cbn. unfold getItem.
  destruct (getItem_fails (faults w)); [done|]. cbn.
  destruct (cart_entry (storage w)) as [[|l|v|]|]; cbn; try done;
    unfold setItem; by destruct (setItem_fails (faults w)).
Qed.

Lemma run_Wishlist_addToCart (p : Product.t) (w : World) :
  run (Wishlist.addToCart p) w = run (ProductDetails.addToCart (Some p)) w.
Proof. reflexivity. Qed.

Lemma run_Wishlist_loadWishlist (w : World) :
  run Wishlist.loadWishlist w =
    if getItem_fails (faults w)
    then caught "Error loading wishlist:" StorageReadError w
    else match wishlist_entry (storage w) with
         | None | Some Blank => (w, Fulfilled tt)
         | Some (Stringified l) =>
             match Promise_all (fetch w <$> l) with
             | Fulfilled products => (setWishlistItems products w, Fulfilled tt)
             | Rejected e => caught "Error loading wishlist:" e w
             end
         | Some (Foreign v) => caught "Error loading wishlist:" TypeError w
         | Some Malformed => caught "Error loading wishlist:" SyntaxError w
         end.
Proof.
  unfold Wishlist.loadWishlist, caught. cbn. unfold getItem.
  destruct (getItem_fails (faults w)); [done|]. cbn.
  destruct (wishlist_entry (storage w)) as [[|l|v|]|]; cbn; try done.
  by destruct (Promise_all (fetch w <$> l)).
Qed.

Lemma run_removeFromWishlist (items : list Product.t) (productId : Z) (w : World) :
  run (Wishlist.removeFromWishlist items productId) w =
    if getItem_fails (faults w)
    then caught "Error removing from wishlist:" StorageReadError w
    else match wishlist_entry (storage w) with
         | None | Some Blank => (w, Fulfilled tt)
         | Some (Stringified l) =>
             if setItem_fails (faults w)
             then caught "Error removing from wishlist:" StorageWriteError w
             else (setWishlistItems
                     (filter (fun item => Product.id item ≠ productId) items)
                     (written Kwishlist (filter (fun id => id ≠ productId) l) w),
                   Fulfilled tt)
         | Some (Foreign v) => caught "Error removing from wishlist:" TypeError w
         | Some Malformed => caught "Error removing from wishlist:" SyntaxError w
         end.
Proof.
  unfold Wishlist.removeFromWishlist, caught. cbn. unfold getItem.
  destruct (getItem_fails (faults w)); [done|]. cbn.
  destruct (wishlist_entry (storage w)) as [[|l|v|]|]; cbn; try done.
  unfold setItem. by destruct (setItem_fails (faults w)).
Qed.

(** ** The cart computations *)

Lemma addOrIncrement_meets_spec (p : Product.t) (l : list CartItem.t) :
  addOrIncrement_spec p l (addOrIncrement p l).
Proof.
  unfold addOrIncrement.
  destruct (list_find _ l) as [[i item]|] eqn:E.
  - apply list_find_Some in E as (Hi & Hid & Hleast).
    rewrite <- (take_drop_middle l i item Hi) at 1 2.
    assert (length (take i l) = i) as Hlen.
    { apply length_take_le. apply lookup_lt_Some in Hi. lia. }
    rewrite alter_app_r_alt by lia. rewrite Hlen, Nat.sub_diag. cbn.
    unfold CartItem.with_quantity.
    apply spec_increment; [|done].
    apply Forall_lookup. intros j y Hj.
    apply lookup_take_Some in Hj as [Hj ?]. by apply (Hleast j).
  - apply list_find_None in E. unfold line_item. by apply spec_append.
Qed.

(** What follows from the contract alone. *)
Section spec_consequences.
Context (p : Product.t) (l l' : list CartItem.t).
Hypothesis Hspec : addOrIncrement_spec p l l'.


Lemma spec_unique_ids : unique_ids l -> unique_ids l'.
Proof.
  unfold unique_ids, ids.
  destruct Hspec as [before item after Hb Hid|cart Hc].
  - by rewrite !fmap_app, !fmap_cons.
  - rewrite fmap_app. cbn. intros Hnd. apply NoDup_app. split_and!; [done| |apply NoDup_singleton].
    intros x Hx ->%list_elem_of_singleton.
    apply list_elem_of_fmap in Hx as (y & Hy & Hin).
    by eapply Forall_forall in Hc.
Qed.

Lemma spec_positive_quantities : positive_quantities l -> positive_quantities l'.
Proof.
  unfold positive_quantities.
  destruct Hspec as [before item after Hb Hid|cart Hc].
  - rewrite !Forall_app, !Forall_cons. cbn. intros (?&?&?). split_and!; [done| lia | done].
  - rewrite Forall_app, Forall_singleton. cbn. intros. split; [done|lia].
Qed.

Lemma spec_quantity :
  quantity_of (Product.id p) l' = Some (default 0 (quantity_of (Product.id p) l) + 1).
Proof.
  unfold quantity_of.
  destruct Hspec as [before item after Hb Hid|cart Hc].
  - rewrite !filter_app.
    assert (filter (fun item => CartItem.id item = Product.id p) before = []) as ->.
    { clear -Hb. induction Hb; [done|]. by rewrite filter_cons_False. }
    rewrite !app_nil_l, !filter_cons_True by done. done.
  - rewrite !filter_app.
    assert (filter (fun item => CartItem.id item = Product.id p) cart = []) as ->.
    { clear -Hc. induction Hc; [done|]. by rewrite filter_cons_False. }
    rewrite !app_nil_l, filter_cons_True by done. done.
Qed.
End spec_consequences.

Lemma filter_all {A} (P : A -> Prop) `{!forall x, Decision (P x)} (l : list A) :
  Forall P l -> filter P l = l.
Proof.
  induction 1 as [|x l Hx Hl IH]; [done|].
  by rewrite filter_cons_True, IH by done.
Qed.

Lemma fmap_filter_id {A} (key_of : A -> Z) (productId : Z) (items : list A) :
  key_of <$> filter (fun item => key_of item ≠ productId) items =
  filter (fun id => id ≠ productId) (key_of <$> items).
Proof.
  induction items as [|x items IH]; [done|].
  rewrite fmap_cons. destruct (decide (key_of x = productId)) as [E|E].
  - by rewrite !filter_cons_False by tauto.
  - by rewrite !filter_cons_True, fmap_cons, IH by done.
Qed.

Lemma filter_out_twice {A} (P : A -> Prop) `{!forall x, Decision (P x)} (l : list A) :
  filter P (filter P l) = filter P l.
Proof.
  apply filter_all, Forall_forall. by intros x [? _]%list_elem_of_filter.
Qed.

Lemma filter_out_absent (productId : Z) (l : list Z) :
  productId ∉ filter (fun id => id ≠ productId) l.
Proof. rewrite list_elem_of_filter. tauto. Qed.

(** The [newCart] of [updateQuantity], one line item at a time. *)
Section newCart.
Context (id : Z) (increment : bool).
Local Abbreviation newCart l := (Cart.updateQuantity_newCart l id increment).
Local Abbreviation newQuantity item :=
  (if increment then CartItem.quantity item + 1 else CartItem.quantity item - 1).

Lemma newCart_nil : newCart [] = [].
Proof. reflexivity. Qed.

Lemma newCart_cons (item : CartItem.t) (l : list CartItem.t) :
  newCart (item :: l) =
    (if bool_decide (CartItem.id item = id) then
       if bool_decide (newQuantity item < 1) then []
       else [CartItem.with_quantity item (newQuantity item)]
     else [item]) ++ newCart l.
Proof.
  unfold Cart.updateQuantity_newCart, filter_Boolean. rewrite fmap_cons. cbn.
  by repeat case_bool_decide.
Qed.


Lemma newCart_ids (l : list CartItem.t) : ids (newCart l) `sublist_of` ids l.
Proof.
  unfold ids. induction l as [|item l IH]; [done|].
  rewrite newCart_cons, fmap_app, fmap_cons.
  repeat case_bool_decide; cbn.
  - by apply sublist_cons.
  - by apply sublist_skip.
  - by apply sublist_skip.
Qed.

Lemma newCart_unique_ids (l : list CartItem.t) :
  unique_ids l -> unique_ids (newCart l).
Proof. unfold unique_ids. eauto using sublist_NoDup, newCart_ids. Qed.

Lemma newCart_positive_quantities (l : list CartItem.t) :
  positive_quantities l -> positive_quantities (newCart l).
Proof.
  unfold positive_quantities. induction 1 as [|item l Hq Hl IH]; [done|].
  rewrite newCart_cons.
  repeat case_bool_decide; cbn; try done; constructor; cbn; try done; lia.
Qed.

(** Whatever the cart was, the targeted line items that remain hold a
    quantity of at least 1. *)
Lemma newCart_target_quantity (l : list CartItem.t) :
  Forall (fun item => CartItem.id item = id -> 1 ≤ CartItem.quantity item) (newCart l).
Proof.
  induction l as [|item l IH]; [done|].
  rewrite newCart_cons.
  repeat case_bool_decide; cbn; try done; constructor; cbn; try done; lia.
Qed.

Lemma newCart_absent (l : list CartItem.t) : id ∉ ids l -> newCart l = l.
Proof.
  unfold ids. induction l as [|item l IH]; [done|].
  rewrite fmap_cons, not_elem_of_cons. intros [Hne Hl].
  rewrite newCart_cons, IH by done.
  by rewrite bool_decide_eq_false_2 by done.
Qed.
End newCart.

Lemma newCart_decrement_removes (l : list CartItem.t) (item : CartItem.t) :
  unique_ids l -> item ∈ l -> CartItem.quantity item - 1 < 1 ->
  Cart.updateQuantity_newCart l (CartItem.id item) false =
    filter (fun other => CartItem.id other ≠ CartItem.id item) l.
Proof.
  unfold unique_ids, ids. intros Hnd Hin Hq.
  induction l as [|x l IH]; [done|].
  rewrite fmap_cons in Hnd. apply NoDup_cons in Hnd as [Hx Hnd].
  rewrite newCart_cons.
  apply elem_of_cons in Hin as [<-|Hin].
  - rewrite bool_decide_eq_true_2 by done.
    rewrite bool_decide_eq_true_2 by done.
    rewrite filter_cons_False by naive_solver.
    rewrite newCart_absent by done. cbn.
    symmetry. apply filter_all, Forall_forall. intros y Hy Heq.
    apply Hx. rewrite <- Heq. by apply list_elem_of_fmap_2.
  - assert (CartItem.id x ≠ CartItem.id item) as Hne.
    { intros Heq. apply Hx. rewrite Heq. by apply list_elem_of_fmap_2. }
    rewrite bool_decide_eq_false_2 by done.
    rewrite filter_cons_True by done. cbn. f_equal. by apply IH.
Qed.



(** ** The cart invariant holds in every reachable state *)

Lemma filter_unique_ids (P : CartItem.t -> Prop) `{!forall x, Decision (P x)}
    (l : list CartItem.t) :
  unique_ids l -> unique_ids (filter P l).
Proof.
  unfold unique_ids, ids. intros Hnd.
  eapply sublist_NoDup; [done|]. apply fmap_sublist, sublist_filter.
Qed.

Lemma filter_positive_quantities (P : CartItem.t -> Prop) `{!forall x, Decision (P x)}
    (l : list CartItem.t) :
  positive_quantities l -> positive_quantities (filter P l).
Proof.
  unfold positive_quantities. rewrite !Forall_forall.
  intros Hall x [_ Hx]%list_elem_of_filter. by apply Hall.
Qed.

Lemma nil_cart_ok : unique_ids [] /\ positive_quantities [].
Proof. split; [apply NoDup_nil_2|apply Forall_nil_2]. Qed.

Lemma stored_default {A} (e : option (text (list A))) (l : list A) :
  stored e = Some l -> default [] (stored e) = l.
Proof. by intros ->. Qed.

Lemma cart_invariant_intro (w : World) (ls lm : list CartItem.t) :
  stored_cart w = Some ls -> cartItems w = Shaped lm ->
  unique_ids ls -> positive_quantities ls ->
  unique_ids lm -> positive_quantities lm ->
  cart_invariant w.
Proof. intros. split; eexists; eauto. Qed.

(** A handler that touches neither the cart entry nor [cartItems]. *)
Ltac cart_frame :=
  unfold caught;
  repeat match goal with
         | |- context [if ?b then _ else _] => destruct b
         | |- context [match ?x with _ => _ end] => destruct x
         end;
  cbn; try done.

Lemma handle_cart_invariant (e : event) (w : World) :
  cart_invariant w -> cart_invariant (handle e w).
Proof.
  intros Hw.
  destruct (Hw) as [(ls & Hs & Hsu & Hsp) (lm & Hm & Hmu & Hmp)].
  pose proof nil_cart_ok as [Hnu Hnp].
  destruct e as [f c| |id increment|id pressed| |productId|id| | | |productId|i];
    cbn [handle].
  - done.
  - rewrite run_loadCart. unfold caught. cbn.
    destruct (getItem_fails (faults w)); cbn.
    { by eapply (cart_invariant_intro _ ls []). }
    unfold stored_cart in Hs.
    destruct (cart_entry (storage w)) as [[|l|v|]|] eqn:E; cbn in Hs; simplify_eq.
    + eapply (cart_invariant_intro _ [] []); try done. unfold stored_cart. cbn. by rewrite E.
    + eapply (cart_invariant_intro _ ls ls); try done. unfold stored_cart. cbn. by rewrite E.
    + eapply (cart_invariant_intro _ [] []); try done. unfold stored_cart. cbn. by rewrite E.
  - rewrite Hm. unfold Cart.updateQuantity. rewrite run_updateCart. unfold caught.
    destruct (setItem_fails (faults w)); cbn; [done|].
    eapply cart_invariant_intro; [done..| | | |];
      eauto using newCart_unique_ids, newCart_positive_quantities.
  - rewrite Hm. destruct pressed; cbn [Cart.removeItem run fst]; [done|].
    rewrite run_updateCart. unfold caught.
    destruct (setItem_fails (faults w)); cbn; [done|].
    eapply cart_invariant_intro; [done..| | | |];
      eauto using filter_unique_ids, filter_positive_quantities.
  - rewrite run_Shop_loadWishlist. cart_frame.
  - destruct (wishlist w) as [l|]; [|done].
    rewrite run_Shop_toggleWishlist. cart_frame.
  - rewrite run_fetchProduct.
    destruct (catalog _ id); unfold caught; cbn [fst]; rewrite run_checkWishlist;
      cart_frame.
  - destruct (product w); [|done].
    rewrite run_Details_toggleWishlist. cart_frame.
  - destruct (product w) as [p|]; [|done].
    rewrite run_Details_addToCart. unfold caught.
    destruct (getItem_fails (faults w)); cbn; [done|].
    pose proof (addOrIncrement_meets_spec p ls) as Hspec.
    unfold stored_cart in Hs.
    destruct (cart_entry (storage w)) as [[|l|v|]|]; cbn in Hs; simplify_eq; cbn;
      destruct (setItem_fails (faults w)); cbn; try done;
      (eapply cart_invariant_intro; [done..| | | |]);
      eauto using spec_unique_ids, spec_positive_quantities.
  - rewrite run_Wishlist_loadWishlist. cart_frame.
  - rewrite run_removeFromWishlist. cart_frame.
  - destruct (wishlistItems w !! i) as [p|]; [|done].
    rewrite run_Wishlist_addToCart, run_Details_addToCart. unfold caught.
    destruct (getItem_fails (faults w)); cbn; [done|].
    pose proof (addOrIncrement_meets_spec p ls) as Hspec.
    unfold stored_cart in Hs.
    destruct (cart_entry (storage w)) as [[|l|v|]|]; cbn in Hs; simplify_eq; cbn;
      destruct (setItem_fails (faults w)); cbn; try done;
      (eapply cart_invariant_intro; [done..| | | |]);
      eauto using spec_unique_ids, spec_positive_quantities.
Qed.

Lemma reachable_cart_invariant (w : World) : reachable w -> cart_invariant w.
Proof.
  induction 1 as [|e w Hw IH].
  - by eapply (cart_invariant_intro _ [] []); try apply nil_cart_ok.
  - by apply handle_cart_invariant.
Qed.

Lemma reachable_replay (events : list event) (w : World) :
  reachable w -> reachable (replay events w).
Proof.
  revert w. induction events as [|e events IH]; intros w Hw; [done|].
  apply IH. by constructor.
Qed.

(** ** C1: a write that fails *)




(** Shop's [toggleWishlist] has shown the new wishlist by the time the
    write fails, and keeps showing it: memory and disk differ. *)
Lemma Shop_toggleWishlist_sets_state_first (l : list Z) (productId : Z) (w : World) :
  setItem_fails (faults w) = true ->
  wishlist (fst (run (Shop.toggleWishlist l productId) w)) = Shaped (toggled productId l) /\
  storage (fst (run (Shop.toggleWishlist l productId) w)) = storage w.
Proof. intros Hf. by rewrite run_Shop_toggleWishlist, Hf. Qed.




(** What pressing plus logs when the write is rejected. *)
Example failed_write_is_logged :
  console (fst (run (call (Cart_updateQuantity [sample_item 1 1] 1 true)) stalled_cart)) =
    console stalled_cart ++ [("Error updating cart:", StorageWriteError)].
Proof. reflexivity. Qed.

(** ** C2: two calls in flight together *)

(** C2, as stated, fails: two [addToCart] calls for product 1 issued on
    an empty cart without awaiting have both read the cart before either
    writes it; both have settled and the persisted quantity is 1. *)
Lemma unawaited_addToCart_loses_an_update :
  forallb is_settled
    (snd (schedule [0; 1; 0; 1]%nat (two_calls (sample_product 1) initial))) = true /\
  stored_quantity 1
    (fst (schedule [0; 1; 0; 1]%nat (two_calls (sample_product 1) initial))) = Some 1 /\
  stored_quantity 1
    (fst (schedule [0; 1; 0; 1]%nat (two_calls (sample_product 1) initial))) ≠ Some 2.
Proof. by split_and!. Qed.

(** C2, amended: two [addToCart] calls for the same product add 2 to its
    quantity when the second is issued after the first has completed,
    or when the adapter happens to serve the first call's write before
    the second call's read; issued without awaiting in between they are
    not serialized: both read the same record, the second write replaces
    the first, and the quantity grows by 1. *)
Theorem addToCart_twice (p : Product.t) (w : World) (cart : list CartItem.t) :
  faults w = healthy ->
  stored_cart w = Some cart ->
  stored_quantity (Product.id p)
    (fst (run (ProductDetails.addToCart (Some p))
            (fst (run (ProductDetails.addToCart (Some p)) w)))) =
    Some (default 0 (quantity_of (Product.id p) cart) + 2) /\
  stored_quantity (Product.id p) (fst (schedule [0; 0; 1; 1]%nat (two_calls p w))) =
    Some (default 0 (quantity_of (Product.id p) cart) + 2) /\
  stored_cart (fst (schedule [0; 1; 0; 1]%nat (two_calls p w))) =
    Some (addOrIncrement p cart) /\
  stored_quantity (Product.id p) (fst (schedule [0; 1; 0; 1]%nat (two_calls p w))) =
    Some (default 0 (quantity_of (Product.id p) cart) + 1).
Proof.
  intros Hf Hs.
  pose proof (spec_quantity p _ _ (addOrIncrement_meets_spec p cart)) as Hq1.
  assert (quantity_of (Product.id p) (addOrIncrement p (addOrIncrement p cart)) =
          Some (default 0 (quantity_of (Product.id p) cart) + 2)) as Hq2.
  { rewrite (spec_quantity p _ _ (addOrIncrement_meets_spec p _)), Hq1.
    f_equal. cbn [default from_option]. unfold id. lia. }
  destruct w as [[we ce] f c ci wl pid pr iw wi co ro]. cbn in Hf. subst f.
  unfold stored_cart in Hs. cbn in Hs.
  destruct ce as [[|l|v|]|]; cbn in Hs; simplify_eq; split_and!;
    first [exact Hq1 | exact Hq2 | reflexivity].
Qed.

Lemma addToCart_twice_witness :
  stored_quantity 1
    (fst (run (ProductDetails.addToCart (Some (sample_product 1)))
            (fst (run (ProductDetails.addToCart (Some (sample_product 1))) one_in_cart)))) =
    Some (default 0 (quantity_of 1 [sample_item 1 1]) + 2) /\
  stored_quantity 1
    (fst (schedule [0; 0; 1; 1]%nat (two_calls (sample_product 1) one_in_cart))) =
    Some (default 0 (quantity_of 1 [sample_item 1 1]) + 2) /\
  stored_cart (fst (schedule [0; 1; 0; 1]%nat (two_calls (sample_product 1) one_in_cart))) =
    Some (addOrIncrement (sample_product 1) [sample_item 1 1]) /\
  stored_quantity 1
    (fst (schedule [0; 1; 0; 1]%nat (two_calls (sample_product 1) one_in_cart))) =
    Some (default 0 (quantity_of 1 [sample_item 1 1]) + 1).
Proof.
  apply (addToCart_twice (sample_product 1) one_in_cart [sample_item 1 1]);
    reflexivity.
Defined.

(** ** C3 and C7: the wishlist *)

Lemma toggled_elem_of (productId x : Z) (l : list Z) :
  x ∈ toggled productId l <->
  (x ≠ productId /\ x ∈ l) \/ (x = productId /\ productId ∉ l).
Proof.
  unfold toggled. case_bool_decide as Hin.
  - rewrite list_elem_of_filter. tauto.
  - rewrite elem_of_app, list_elem_of_singleton.
    destruct (decide (x = productId)) as [->|]; tauto.
Qed.

(** Shop's toggle inserts an absent id and removes a present one. *)
Lemma toggled_flips (productId : Z) (l : list Z) :
  productId ∈ toggled productId l <-> productId ∉ l.
Proof. rewrite toggled_elem_of. tauto. Qed.

(** Toggling twice in Shop gives back the set one started from. *)
Lemma toggled_twice (productId x : Z) (l : list Z) :
  x ∈ toggled productId (toggled productId l) <-> x ∈ l.
Proof.
  rewrite toggled_elem_of, toggled_flips, toggled_elem_of.
  destruct (decide (x = productId)) as [->|]; [|tauto].
  destruct (decide (productId ∈ l)); tauto.
Qed.

Lemma toggled_NoDup (productId : Z) (l : list Z) :
  NoDup l -> NoDup (toggled productId l).
Proof.
  unfold toggled. intros Hnd. case_bool_decide as Hin.
  - by apply NoDup_filter.
  - apply NoDup_app. split_and!; [done| |apply NoDup_singleton].
    by intros x Hx ->%list_elem_of_singleton.
Qed.

(** ProductDetails decides by its flag; when the flag tells whether the
    id is in the stored list, it writes what Shop's toggle would. *)
Lemma Details_toggleWishlist_with_right_flag (id : Z) (l : list Z) (w : World) :
  faults w = healthy ->
  wishlist_entry (storage w) = Some (Stringified l) ->
  stored_wishlist
    (fst (run (ProductDetails.toggleWishlist id (bool_decide (id ∈ l))) w)) =
    Some (toggled id l).
Proof.
  intros Hf Hs. rewrite run_Details_toggleWishlist, Hf, Hs. cbn.
  unfold toggled. by case_bool_decide.
Qed.

(** The Shop screen's toggle is the toggle of the specification: with a
    healthy adapter it shows and persists a list in which the id is
    present exactly when it was absent before, every other id is kept,
    and a second toggle gives back the set one started from. *)
Theorem Shop_toggleWishlist_toggles (l : list Z) (productId : Z) (w : World) :
  faults w = healthy ->
  exists l',
    wishlist (fst (run (Shop.toggleWishlist l productId) w)) = Shaped l' /\
    stored_wishlist (fst (run (Shop.toggleWishlist l productId) w)) = Some l' /\
    (productId ∈ l' <-> productId ∉ l) /\
    (forall x, x ≠ productId -> x ∈ l' <-> x ∈ l) /\
    (NoDup l -> NoDup l') /\
    exists l'',
      stored_wishlist
        (fst (run (Shop.toggleWishlist l' productId)
                (fst (run (Shop.toggleWishlist l productId) w)))) = Some l'' /\
      forall x, x ∈ l'' <-> x ∈ l.
Proof.
  intros Hf. exists (toggled productId l).
  rewrite !run_Shop_toggleWishlist, Hf. cbn. rewrite Hf. cbn.
  split_and!; try done.
  - apply toggled_flips.
  - intros x Hx. rewrite toggled_elem_of. tauto.
  - apply toggled_NoDup.
  - eexists. split; [done|]. intros x. apply toggled_twice.
Qed.

Lemma Shop_toggleWishlist_toggles_witness :
  exists l',
    wishlist (fst (run (Shop.toggleWishlist [] 5) initial)) = Shaped l' /\
    stored_wishlist (fst (run (Shop.toggleWishlist [] 5) initial)) = Some l' /\
    (5 ∈ l' <-> 5 ∉ ([] : list Z)) /\
    (forall x, x ≠ 5 -> x ∈ l' <-> x ∈ ([] : list Z)) /\
    (NoDup ([] : list Z) -> NoDup l') /\
    exists l'',
      stored_wishlist
        (fst (run (Shop.toggleWishlist l' 5)
                (fst (run (Shop.toggleWishlist [] 5) initial)))) = Some l'' /\
      forall x, x ∈ l'' <-> x ∈ ([] : list Z).
Proof. apply (Shop_toggleWishlist_toggles [] 5 initial). reflexivity. Defined.

(** The scenario of the specification, on the Shop screen: toggling 5 on
    the empty wishlist stores [5], toggling again stores the empty
    list. *)
Example toggle_5_twice :
  stored_wishlist (replay [MountShop; PressHeartInShop 5] initial) = Some [5] /\
  stored_wishlist (replay [MountShop; PressHeartInShop 5; PressHeartInShop 5] initial) =
    Some [].
Proof. by split. Qed.

(** In every reachable state neither the persisted cart nor the cart on
    screen holds two line items with the same id. *)
Theorem cart_ids_stay_unique (w : World) :
  reachable w ->
  (exists cart, stored_cart w = Some cart /\ unique_ids cart) /\
  (exists items, cartItems w = Shaped items /\ unique_ids items).
Proof.
  intros [(cart & Hs & Hsu & _) (l & Hm & Hmu & _)]%reachable_cart_invariant.
  split; eexists; eauto.
Qed.

Lemma cart_ids_stay_unique_witness :
  (exists cart, stored_cart one_in_cart = Some cart /\ unique_ids cart) /\
  (exists items, cartItems one_in_cart = Shaped items /\ unique_ids items).
Proof.
  apply (cart_ids_stay_unique one_in_cart).
  apply reachable_replay, reachable_initial.
Defined.

(** C3: the wishlist part fails on ProductDetails' [toggleWishlist],
    which pushes the id whenever [isInWishlist] is false, without looking
    it up in the list it has just read.  Product 5 is on the wishlist,
    its details screen is opened while reads fail, and the heart is
    pressed once reads work again: the record [5, 5] is persisted. *)
Theorem duplicate_wishlist_id_is_reachable :
  reachable (replay (stale_flag ++ [PressHeartInDetails]) initial) /\
  stored_wishlist (replay stale_flag initial) = Some [5] /\
  isInWishlist (replay stale_flag initial) = false /\
  stored_wishlist (replay (stale_flag ++ [PressHeartInDetails]) initial) = Some [5; 5] /\
  ~ NoDup [5; 5].
Proof.
  split_and!; try reflexivity.
  - apply reachable_replay, reachable_initial.
  - rewrite NoDup_cons, list_elem_of_singleton. tauto.
Qed.

(** C7: from the same state, two presses on the heart of ProductDetails
    do not give back the set {5}: the first stores [5, 5], the second
    stores the empty list. *)
Theorem stale_flag_toggle_twice :
  stored_wishlist (replay stale_flag initial) = Some [5] /\
  stored_wishlist (replay (stale_flag ++ [PressHeartInDetails]) initial) = Some [5; 5] /\
  stored_wishlist
    (replay (stale_flag ++ [PressHeartInDetails; PressHeartInDetails]) initial) = Some [].
Proof. by split_and!. Qed.

(** ** C4: quantities *)



(** Pressing minus on the only unit of product 1 empties the cart. *)
Example minus_on_last_unit :
  stored_cart (handle (PressQuantity 1 false) one_in_cart) = Some [] /\
  cartItems (handle (PressQuantity 1 false) one_in_cart) = Shaped [].
Proof. by split. Qed.

(** ** C5: the total *)

(** C5, as stated, fails: for a line item priced 1e16 and another priced
    1 the screen's total is 1e16, one whole unit away from the exact
    sum. *)
Lemma getTotalPrice_drifts : ~ within_display_precision large_cart.
Proof.
  intros (shown & exact & Hshown & Hexact & Hlt).
  vm_compute in Hshown, Hexact. simplify_eq.
  vm_compute in Hlt. discriminate.
Qed.

(** On the range of the machine conversion from integers, [number] is
    that conversion. *)
Lemma number_of_uint63 (z : Z) :
  0 ≤ z < 2 ^ 63 -> number z = of_uint63 (Uint63.of_Z z).
Proof.
  intros Hz. unfold number.
  rewrite <- (SF2Prim_Prim2SF (of_uint63 (Uint63.of_Z z))), of_uint63_spec.
  rewrite Uint63.of_Z_spec, Z.mod_small; [done|]. exact Hz.
Qed.

(** The quantities of a shopping cart are converted exactly. *)
Lemma number_of_small_quantities (z : Z) :
  -4096 ≤ z ≤ 4096 -> exact_number z = true.
Proof.
  intros Hz.
  assert (forallb exact_number (seqZ (-4096) 8193) = true) as Hall
    by (vm_compute; reflexivity).
  rewrite forallb_forall in Hall. apply Hall, list_elem_of_In, elem_of_seqZ. lia.
Qed.

(** C5, amended: the total is 0 for the empty cart and otherwise the sum
    of price × quantity accumulated from left to right in binary64
    arithmetic, every product and every partial sum rounded to the
    nearest double.  A quantity enters its product as the double nearest
    to it: the machine conversion below 2^63, exact up to 4096 at
    least.  Ten units of currency five times make 50, and 2^63 times
    make 10 × 2^63. *)
Theorem getTotalPrice_accumulates :
  Cart.getTotalPrice [] = 0%float /\
  (forall cartItems item,
     Cart.getTotalPrice (cartItems ++ [item]) =
       (Cart.getTotalPrice cartItems +
        CartItem.price item * number (CartItem.quantity item))%float) /\
  (forall z, 0 ≤ z < 2 ^ 63 -> number z = of_uint63 (Uint63.of_Z z)) /\
  (forall z, -4096 ≤ z ≤ 4096 -> exact_number z = true) /\
  Cart.getTotalPrice [sample_item 1 5] = 50%float /\
  Cart.getTotalPrice [sample_item 1 (2 ^ 63)] = (10 * 9223372036854775808)%float.
Proof.
  split_and!; [done| |apply number_of_uint63|apply number_of_small_quantities|
               by vm_compute|by vm_compute].
  intros l item. unfold Cart.getTotalPrice. by rewrite foldl_app.
Qed.

Lemma getTotalPrice_accumulates_witness :
  Cart.getTotalPrice ([sample_item 1 2] ++ [sample_item 3 1]) =
    (Cart.getTotalPrice [sample_item 1 2] + 10 * number 1)%float /\
  number 2 = of_uint63 (Uint63.of_Z 2) /\
  exact_number 2 = true.
Proof.
  destruct getTotalPrice_accumulates as (_ & Hsnoc & Hmachine & Hexact & _).
  split_and!; [apply Hsnoc|apply Hmachine; lia|apply Hexact; lia].
Defined.

(** ** C6 and C10: adding to the cart *)

(** C6: with a healthy adapter and a cart record of the expected shape
    (or none yet), both [addToCart] handlers persist a cart that meets
    the contract of [addOrIncrement]: the first line item with the
    product's id gains exactly one unit and nothing is added, or else a
    line item of quantity 1 carrying the product's id, title, price and
    image is appended at the end. *)
Theorem addToCart_adds_or_increments (p : Product.t) (w : World)
    (cart : list CartItem.t) :
  faults w = healthy ->
  stored_cart w = Some cart ->
  exists cart',
    addOrIncrement_spec p cart cart' /\
    snd (run (ProductDetails.addToCart (Some p)) w) = Fulfilled tt /\
    stored_cart (fst (run (ProductDetails.addToCart (Some p)) w)) = Some cart' /\
    snd (run (Wishlist.addToCart p) w) = Fulfilled tt /\
    stored_cart (fst (run (Wishlist.addToCart p) w)) = Some cart'.
Proof.
  intros Hf Hs. exists (addOrIncrement p cart).
  split; [apply addOrIncrement_meets_spec|].
  rewrite run_Wishlist_addToCart, run_Details_addToCart, Hf. cbn.
  unfold stored_cart in Hs.
  by destruct (cart_entry (storage w)) as [[|l|v|]|]; cbn in Hs; simplify_eq.
Qed.

Lemma addToCart_adds_or_increments_witness :
  exists cart',
    addOrIncrement_spec (sample_product 1) [sample_item 1 1] cart' /\
    snd (run (ProductDetails.addToCart (Some (sample_product 1))) one_in_cart) =
      Fulfilled tt /\
    stored_cart (fst (run (ProductDetails.addToCart (Some (sample_product 1))) one_in_cart)) =
      Some cart' /\
    snd (run (Wishlist.addToCart (sample_product 1)) one_in_cart) = Fulfilled tt /\
    stored_cart (fst (run (Wishlist.addToCart (sample_product 1)) one_in_cart)) =
      Some cart'.
Proof.
  apply (addToCart_adds_or_increments (sample_product 1) one_in_cart [sample_item 1 1]);
    reflexivity.
Defined.




(** ** C8: hydrating the wishlist *)

Lemma Promise_all_fulfilled (w : World) (wishlistIds : list Z) :
  Forall (fun id => is_Some (catalog w id)) wishlistIds ->
  Promise_all (fetch w <$> wishlistIds) = Fulfilled (omap (catalog w) wishlistIds) /\
  length (omap (catalog w) wishlistIds) = length wishlistIds.
Proof.
  induction 1 as [|id l [p Hp] Hl [IH1 IH2]]; [done|].
  rewrite fmap_cons. cbn. unfold fetch at 1. rewrite Hp, IH1. cbn.
  by rewrite IH2.
Qed.

Lemma Promise_all_rejected (w : World) (wishlistIds : list Z) :
  Exists (fun id => catalog w id = None) wishlistIds ->
  Promise_all (fetch w <$> wishlistIds) = Rejected CatalogLookupError.
Proof.
  induction 1 as [id l Hid|id l Hl IH]; rewrite fmap_cons; cbn; unfold fetch at 1.
  - by rewrite Hid.
  - destruct (catalog w id); [by rewrite IH|done].
Qed.

(** C8, as stated, fails: with products 1 and 2 on the wishlist and
    product 2 gone from the catalog, the Wishlist screen shows nothing,
    not product 1. *)
Lemma one_failed_lookup_empties_the_list : ~ hydrates_tolerantly two_wishes.
Proof. intros H. specialize (H [1; 2] eq_refl). vm_compute in H. discriminate. Qed.

(** C8, amended: with the wishlist read from storage, hydration is all
    or nothing.  When every lookup succeeds the screen shows the
    products in the order of the ids; when one lookup fails no product
    is shown (the state stays as it was), the failure is logged with
    [console.error], and the promise of the call is fulfilled, so that
    it never surfaces as an exception. *)
Theorem hydration_is_all_or_nothing (w : World) (wishlistIds : list Z) :
  getItem_fails (faults w) = false ->
  wishlist_entry (storage w) = Some (Stringified wishlistIds) ->
  snd (run Wishlist.loadWishlist w) = Fulfilled tt /\
  (Forall (fun id => is_Some (catalog w id)) wishlistIds ->
   fst (run Wishlist.loadWishlist w) =
     setWishlistItems (omap (catalog w) wishlistIds) w /\
   length (omap (catalog w) wishlistIds) = length wishlistIds) /\
  (Exists (fun id => catalog w id = None) wishlistIds ->
   fst (run Wishlist.loadWishlist w) =
     console_error "Error loading wishlist:" CatalogLookupError w).
Proof.
  intros Hf Hs. rewrite run_Wishlist_loadWishlist, Hf, Hs. split_and!.
  - by destruct (Promise_all _).
  - intros [E Hlen]%Promise_all_fulfilled. by rewrite E.
  - intros E%Promise_all_rejected. by rewrite E.
Qed.

Lemma hydration_is_all_or_nothing_witness :
  wishlistItems (fst (run Wishlist.loadWishlist good_wishes)) =
    [sample_product 1; sample_product 3] /\
  fst (run Wishlist.loadWishlist two_wishes) =
    console_error "Error loading wishlist:" CatalogLookupError two_wishes /\
  snd (run Wishlist.loadWishlist two_wishes) = Fulfilled tt.
Proof.
  split_and!.
  - destruct (hydration_is_all_or_nothing good_wishes [1; 3] eq_refl eq_refl)
      as (_ & Hall & _).
    destruct Hall as [-> _]; [|reflexivity].
    repeat (apply Forall_cons; split; [by eexists|]). apply Forall_nil_2.
  - apply (hydration_is_all_or_nothing two_wishes [1; 2] eq_refl eq_refl).
    apply Exists_cons_tl, Exists_cons_hd. reflexivity.
  - apply (hydration_is_all_or_nothing two_wishes [1; 2] eq_refl eq_refl).
Defined.

(** ** C9: loading *)

(** C9, as stated, fails: when the cart key holds the JSON text [null],
    which parses but is no cart, the Cart screen is left with [null],
    not with the empty cart. *)
Lemma foreign_json_is_not_recovered : ~ recovers_to_empty null_cart.
Proof. intros [H _]. specialize (H eq_refl). vm_compute in H. discriminate. Qed.

(** C9, amended: a screen mounted when nothing is stored, when the read
    is rejected, or when the stored string is not JSON shows the empty
    collection, and the promise of its load is fulfilled; a stored
    record is shown as stored; a stored JSON value of another shape is
    installed as it is, unchecked. *)
Theorem load_recovers_from_unreadable_storage (w : World) :
  (getItem_fails (faults w) = true \/ unreadable (cart_entry (storage w)) = true ->
   cartItems (handle MountCart w) = Shaped [] /\
   snd (run Cart.loadCart (setCartItems (Shaped []) w)) = Fulfilled tt) /\
  (getItem_fails (faults w) = true \/ unreadable (wishlist_entry (storage w)) = true ->
   wishlist (handle MountShop w) = Shaped [] /\
   snd (run Shop.loadWishlist (setWishlist (Shaped []) w)) = Fulfilled tt) /\
  (getItem_fails (faults w) = false ->
   (forall l, cart_entry (storage w) = Some (Stringified l) ->
              cartItems (handle MountCart w) = Shaped l) /\
   (forall l, wishlist_entry (storage w) = Some (Stringified l) ->
              wishlist (handle MountShop w) = Shaped l) /\
   (forall v, cart_entry (storage w) = Some (Foreign v) ->
              cartItems (handle MountCart w) = Unshaped v) /\
   (forall v, wishlist_entry (storage w) = Some (Foreign v) ->
              wishlist (handle MountShop w) = Unshaped v)).
Proof.
  cbn [handle]. rewrite !run_loadCart, !run_Shop_loadWishlist. unfold caught. cbn.
  split_and!.
  - intros [->| Hu]; [done|].
    destruct (getItem_fails (faults w)); [done|].
    by destruct (cart_entry (storage w)) as [[|?|?|]|].
  - intros [->| Hu]; [done|].
    destruct (getItem_fails (faults w)); [done|].
    by destruct (wishlist_entry (storage w)) as [[|?|?|]|].
  - intros ->. by split_and!; intros ? ->.
Qed.

Lemma load_recovers_from_unreadable_storage_witness :
  cartItems (handle MountCart stalled_reads) = Shaped [] /\
  wishlist (handle MountShop initial) = Shaped [] /\
  cartItems (handle MountCart one_in_cart) = Shaped [sample_item 1 1] /\
  cartItems (handle MountCart null_cart) = Unshaped JNull.
Proof.
  split_and!.
  - destruct (load_recovers_from_unreadable_storage stalled_reads) as (Hcart & _ & _).
    apply Hcart. left. reflexivity.
  - destruct (load_recovers_from_unreadable_storage initial) as (_ & Hwishlist & _).
    apply Hwishlist. right. reflexivity.
  - destruct (load_recovers_from_unreadable_storage one_in_cart) as (_ & _ & Hread).
    destruct (Hread eq_refl) as (Hcart & _). apply Hcart. reflexivity.
  - destruct (load_recovers_from_unreadable_storage null_cart) as (_ & _ & Hread).
    destruct (Hread eq_refl) as (_ & _ & Hforeign & _). apply Hforeign. reflexivity.
Defined.

(** * Further properties of the screens *)

(** ** Searching and filtering the catalogue *)

Lemma append_cons (c : Ascii.ascii) (a b : string) :
  String.append (String c a) b = String c (String.append a b).
Proof. reflexivity. Qed.

Lemma prefix_append (a s : string) :
  String.prefix a s = true <-> exists b, s = String.append a b.
Proof.
  revert s. induction a as [|c a IH]; intros s.
  - split; [intros _; by exists s|]. by destruct s.
  - destruct s as [|d s]; cbn [String.prefix].
    + split; [done|]. intros [b Hb]. by rewrite append_cons in Hb.
    + destruct (Ascii.ascii_dec c d) as [->|Hne].
      * rewrite IH. split; intros [b Hb]; exists b; rewrite append_cons in *; congruence.
      * split; [done|]. intros [b Hb]. rewrite append_cons in Hb. congruence.
Qed.

(** [includes] finds the search string exactly when the string is some
    prefix, the search string, and some suffix. *)
Lemma includes_append (a s : string) :
  includes a s = true <->
  exists pre post, s = String.append pre (String.append a post).
Proof.
  induction s as [|c s IH]; cbn [includes]; rewrite orb_true_iff, prefix_append.
  - split.
    + intros [[b Hb]|?]; [|done]. by exists EmptyString, b.
    + intros (pre & post & E). left.
      destruct pre; [by exists post|by rewrite append_cons in E].
  - rewrite IH. split.
    + intros [[b Hb]|(pre & post & ->)]; [by exists EmptyString, b|].
      by exists (String c pre), post.
    + intros (pre & post & E). destruct pre as [|d pre].
      * left. by exists post.
      * right. exists pre, post. rewrite append_cons in E. congruence.
Qed.

Lemma append_assoc (a b c : string) :
  String.append (String.append a b) c = String.append a (String.append b c).
Proof. induction a as [|x a IH]; [done|]. rewrite !append_cons. congruence. Qed.

Lemma includes_trans (a b c : string) :
  includes a b = true -> includes b c = true -> includes a c = true.
Proof.
  rewrite !includes_append. intros (p1 & q1 & ->) (p2 & q2 & ->).
  exists (String.append p2 p1), (String.append q1 q2).
  by rewrite !append_assoc.
Qed.

Lemma filter_everything {A} (l : list A) : filter (fun _ => True) l = l.
Proof. induction l as [|x l IH]; [done|]. by rewrite filter_cons_True, IH. Qed.

Lemma filter_sublist_impl {A} (P Q : A -> Prop)
    `{!forall x, Decision (P x), !forall x, Decision (Q x)} (l : list A) :
  (forall x, P x -> Q x) -> filter P l `sublist_of` filter Q l.
Proof.
  intros HPQ. induction l as [|x l IH]; [done|].
  destruct (decide (P x)) as [HP|HP].
  - rewrite !filter_cons_True by auto. by apply sublist_skip.
  - rewrite (filter_cons_False P) by done.
    destruct (decide (Q x)).
    + rewrite filter_cons_True by done. by apply sublist_cons.
    + by rewrite filter_cons_False by done.
Qed.

Section Shop_view.
Context (toLowerCase : string -> string).
Local Abbreviation replayed := (shop_replay toLowerCase).
Local Abbreviation react := (shop_handle toLowerCase).
Local Abbreviation settled_view v :=
  (filteredProducts v = filter (listed toLowerCase v) (products v)).

(** The two conditional filters of the effect are one filter. *)
Lemma filterEffect_listed (v : ShopView) :
  filterEffect toLowerCase v =
    setFilteredProducts (filter (listed toLowerCase v) (products v)) v.
Proof.
  unfold filterEffect. f_equal.
  repeat case_bool_decide.
  - rewrite list_filter_filter. apply list_filter_iff. intros p. unfold listed. tauto.
  - apply list_filter_iff. intros p. unfold listed. tauto.
  - apply list_filter_iff. intros p. unfold listed.
    destruct (decide (searchQuery v = "")); tauto.
  - rewrite <- (filter_everything (products v)) at 1.
    apply list_filter_iff. intros p. unfold listed.
    destruct (decide (searchQuery v = ""));
      destruct (decide (selectedCategory v = "all")); tauto.
Qed.

Lemma shop_replay_snoc (events : list shop_event) (e : shop_event) :
  replayed (events ++ [e]) = react e (replayed events).
Proof. unfold shop_replay. by rewrite foldl_app. Qed.

Lemma shop_handle_settled (e : shop_event) (v : ShopView) :
  settled_view v -> settled_view (react e v).
Proof.
  intros Hv. destruct e as [[data|err]|[data|err]|text|item]; cbn [shop_handle];
    try exact Hv.
  - by rewrite filterEffect_listed.
  - destruct (loading v); [done|]. case_bool_decide; [done|].
    by rewrite filterEffect_listed.
  - destruct (loading v); [done|]. repeat case_bool_decide; try done.
    by rewrite filterEffect_listed.
Qed.

Lemma shop_replay_settled (events : list shop_event) : settled_view (replayed events).
Proof.
  induction events as [|e events IH] using rev_ind.
  - unfold shop_replay. cbn [foldl]. by rewrite filterEffect_listed.
  - rewrite shop_replay_snoc. by apply shop_handle_settled.
Qed.

Lemma ChangeText_listed (events : list shop_event) (text : string) :
  loading (replayed events) = false ->
  filteredProducts (react (ChangeText text) (replayed events)) =
    filter (listed toLowerCase (setSearchQuery text (replayed events)))
           (products (replayed events)).
Proof.
  intros Hl. cbn [shop_handle]. rewrite Hl. case_bool_decide as Heq.
  - rewrite shop_replay_settled.
    apply list_filter_iff. intros p. unfold listed. cbn. by rewrite Heq.
  - by rewrite filterEffect_listed.
Qed.

(** While the products request has not settled nothing can be typed or
    selected. *)
Lemma shop_loading (events : list shop_event) :
  loading (replayed events) = true ->
  searchQuery (replayed events) = "" /\
  selectedCategory (replayed events) = "all" /\
  products (replayed events) = [].
Proof.
  induction events as [|e events IH] using rev_ind; [done|].
  rewrite shop_replay_snoc.
  destruct e as [[data|err]|[data|err]|text|item]; cbn [shop_handle].
  - rewrite filterEffect_listed. by cbn.
  - by cbn.
  - exact IH.
  - exact IH.
  - destruct (loading (replayed events)) eqn:El; [intros _; by apply IH|].
    case_bool_decide; [by rewrite El|]. rewrite filterEffect_listed. cbn.
    by rewrite El.
  - destruct (loading (replayed events)) eqn:El; [intros _; by apply IH|].
    repeat case_bool_decide; try (by rewrite El).
    rewrite filterEffect_listed. cbn. by rewrite El.
Qed.

(** Only the products request ends the loading. *)
Lemma shop_waits (events : list shop_event) :
  Forall (fun e => forall r, e ≠ ProductsResponse r) events ->
  loading (replayed events) = true.
Proof.
  induction events as [|e events IH] using rev_ind; [done|].
  rewrite Forall_app, Forall_singleton. intros [Hall He].
  rewrite shop_replay_snoc. specialize (IH Hall).
  destruct e as [r|[data|err]|text|item]; cbn [shop_handle]; try done.
  - by destruct (He r).
  - by rewrite IH.
  - by rewrite IH.
Qed.

Lemma shop_loaded (events : list shop_event) (e : shop_event) :
  loading (replayed events) = false -> loading (react e (replayed events)) = false.
Proof.
  intros El.
  destruct e as [[data|err]|[data|err]|text|item]; cbn [shop_handle].
  - rewrite filterEffect_listed. by cbn.
  - by cbn.
  - exact El.
  - exact El.
  - rewrite El. case_bool_decide; [done|]. rewrite filterEffect_listed. by cbn.
  - rewrite El. repeat case_bool_decide; try done;
      rewrite filterEffect_listed; by cbn.
Qed.
End Shop_view.

(** The list on the Shop screen is always the catalogue filtered by the
    current category and query: after any sequence of responses, typing
    and category presses, [filteredProducts] holds exactly the products
    that are listed (the category is "all" or the product's own, the
    query is empty or occurs in the title, both lower-cased), in the
    order of the catalogue. *)
Theorem shop_lists_what_matches (toLowerCase : string -> string)
    (events : list shop_event) :
  filteredProducts (shop_replay toLowerCase events) =
    filter (listed toLowerCase (shop_replay toLowerCase events))
           (products (shop_replay toLowerCase events)) /\
  (filteredProducts (shop_replay toLowerCase events)
     `sublist_of` products (shop_replay toLowerCase events)) /\
  (forall product,
     product ∈ filteredProducts (shop_replay toLowerCase events) <->
     product ∈ products (shop_replay toLowerCase events) /\
     listed toLowerCase (shop_replay toLowerCase events) product).
Proof.
  pose proof (shop_replay_settled toLowerCase events) as H.
  split_and!; [exact H|rewrite H; apply sublist_filter|].
  intros product. rewrite H, list_elem_of_filter. tauto.
Qed.

(** Typing more narrows the list: when the lower-cased query [q] occurs
    in the lower-cased query [q'], and [q'] is not empty, what the
    screen lists for [q'] is listed, in the same order, for [q]. *)
Theorem longer_query_narrows (toLowerCase : string -> string)
    (events : list shop_event) (q q' : string) :
  loading (shop_replay toLowerCase events) = false ->
  includes (toLowerCase q) (toLowerCase q') = true ->
  q' ≠ "" ->
  filteredProducts
    (shop_handle toLowerCase (ChangeText q') (shop_replay toLowerCase events))
  `sublist_of`
  filteredProducts
    (shop_handle toLowerCase (ChangeText q) (shop_replay toLowerCase events)).
Proof.
  intros Hl Hq Hne. rewrite !ChangeText_listed by done.
  apply filter_sublist_impl. intros p [Hc [Hs|Hs]]; cbn in *; [done|].
  split; [done|]. right. by eapply includes_trans.
Qed.

Lemma longer_query_narrows_witness :
  filteredProducts
    (shop_handle ascii_lower (ChangeText "SK")
       (shop_replay ascii_lower
          [ProductsResponse (Fulfilled [sample_shirt; sample_ring; sample_skirt])]))
  `sublist_of`
  filteredProducts
    (shop_handle ascii_lower (ChangeText "s")
       (shop_replay ascii_lower
          [ProductsResponse (Fulfilled [sample_shirt; sample_ring; sample_skirt])])).
Proof.
  apply (longer_query_narrows ascii_lower
           [ProductsResponse (Fulfilled [sample_shirt; sample_ring; sample_skirt])]
           "s" "SK"); [reflexivity|reflexivity|discriminate].
Defined.

(** What the two searches of the example list. *)
Example search_for_s_then_sk :
  Product.title <$> filteredProducts
    (shop_handle ascii_lower (ChangeText "s")
       (shop_replay ascii_lower
          [ProductsResponse (Fulfilled [sample_shirt; sample_ring; sample_skirt])])) =
    ["Cotton Shirt"; "Silk Skirt"] /\
  Product.title <$> filteredProducts
    (shop_handle ascii_lower (ChangeText "SK")
       (shop_replay ascii_lower
          [ProductsResponse (Fulfilled [sample_shirt; sample_ring; sample_skirt])])) =
    ["Silk Skirt"].
Proof. by split. Qed.

(** The spinner: as long as no products request has settled the screen
    is loading; a loading screen has the empty query, the category "all"
    and no product; once the request has settled, fulfilled or rejected,
    the screen is never loading again; and a rejected request leaves the
    catalogue as it was and logs one error. *)
Theorem shop_stops_loading (toLowerCase : string -> string)
    (events more : list shop_event) (response : settled (list Product.t)) :
  (Forall (fun e => forall r, e ≠ ProductsResponse r) events ->
   loading (shop_replay toLowerCase events) = true) /\
  (loading (shop_replay toLowerCase events) = true ->
   searchQuery (shop_replay toLowerCase events) = "" /\
   selectedCategory (shop_replay toLowerCase events) = "all" /\
   products (shop_replay toLowerCase events) = [] /\
   filteredProducts (shop_replay toLowerCase events) = []) /\
  loading (shop_replay toLowerCase (events ++ ProductsResponse response :: more)) =
    false /\
  (forall e,
     response = Rejected e ->
     products (shop_replay toLowerCase (events ++ [ProductsResponse response])) =
       products (shop_replay toLowerCase events) /\
     filteredProducts (shop_replay toLowerCase (events ++ [ProductsResponse response])) =
       filteredProducts (shop_replay toLowerCase events) /\
     errors (shop_replay toLowerCase (events ++ [ProductsResponse response])) =
       errors (shop_replay toLowerCase events) ++ [("Error fetching products:", e)]).
Proof.
  split_and!.
  - apply shop_waits.
  - intros Hl. destruct (shop_loading toLowerCase events Hl) as (Hq & Hc & Hp).
    split_and!; try done. by rewrite shop_replay_settled, Hp.
  - induction more as [|e more IH] using rev_ind.
    + rewrite shop_replay_snoc. destruct response; cbn [shop_handle]; [|done].
      rewrite filterEffect_listed. by cbn.
    + rewrite app_comm_cons, app_assoc, shop_replay_snoc. by apply shop_loaded.
  - intros e ->. by rewrite shop_replay_snoc.
Qed.

Lemma shop_stops_loading_witness :
  loading (shop_replay ascii_lower [CategoriesResponse (Fulfilled ["clothing"])]) =
    true /\
  (searchQuery (shop_replay ascii_lower [CategoriesResponse (Fulfilled ["clothing"])]) =
     "" /\
   selectedCategory
     (shop_replay ascii_lower [CategoriesResponse (Fulfilled ["clothing"])]) = "all" /\
   products (shop_replay ascii_lower [CategoriesResponse (Fulfilled ["clothing"])]) =
     [] /\
   filteredProducts
     (shop_replay ascii_lower [CategoriesResponse (Fulfilled ["clothing"])]) = []) /\
  errors (shop_replay ascii_lower
            ([CategoriesResponse (Fulfilled ["clothing"])] ++
             [ProductsResponse (Rejected CatalogLookupError)])) =
    errors (shop_replay ascii_lower [CategoriesResponse (Fulfilled ["clothing"])]) ++
    [("Error fetching products:", CatalogLookupError)].
Proof.
  destruct (shop_stops_loading ascii_lower [CategoriesResponse (Fulfilled ["clothing"])]
              [] (Rejected CatalogLookupError))
    as (Hwaits & Hloading & _ & Hrejected).
  assert (loading (shop_replay ascii_lower [CategoriesResponse (Fulfilled ["clothing"])]) =
          true) as Hl.
  { apply Hwaits. apply Forall_singleton. discriminate. }
  split; [exact Hl|]. split; [by apply Hloading|].
  by destruct (Hrejected CatalogLookupError eq_refl) as (_ & _ & Herrors).
Defined.

(** ** What no handler does *)

Lemma quiet_same (w : World) : quiet w (w, Fulfilled tt).
Proof. split; [done|by left]. Qed.

Lemma quiet_caught (w : World) (msg : string) (e : error) : quiet w (caught msg e w).
Proof. split; [done|]. right. by exists msg, e. Qed.

(** Case analysis on the outcome of a handler given in closed form. *)
Ltac quiet_cases :=
  cbv zeta;
  repeat match goal with
         | |- quiet _ (caught _ _ _) => apply quiet_caught
         | |- quiet ?w (?w, Fulfilled tt) => apply quiet_same
         | |- quiet _ (if ?b then _ else _) => destruct b
         | |- quiet _ (match ?x with _ => _ end) => destruct x
         | |- quiet _ _ => by (split; [done|left])
         end.

(** No handler that uses the storage adapter or looks a product up ever
    rejects: whatever is stored, whatever the adapter and the catalog
    answer, its promise is fulfilled.  It logs at most one error, and a
    call that logs an error has written nothing to storage and has not
    navigated. *)
Theorem handlers_never_reject (h : handler) (w : World) :
  snd (run (body h) w) = Fulfilled tt /\
  (console (fst (run (body h) w)) = console w \/
   exists msg e,
     console (fst (run (body h) w)) = console w ++ [(msg, e)] /\
     storage (fst (run (body h) w)) = storage w /\
     route (fst (run (body h) w)) = route w).
Proof.
  change (quiet w (run (body h) w)).
  destruct h as [|newCart|l id pressed| |id|id|product| |m]; cbn [body].
  - rewrite run_loadCart. quiet_cases.
  - rewrite run_updateCart. quiet_cases.
  - destruct pressed; cbn [Cart.removeItem]; [apply quiet_same|].
    rewrite run_updateCart. quiet_cases.
  - rewrite run_Shop_loadWishlist. quiet_cases.
  - rewrite run_fetchProduct. quiet_cases.
  - rewrite run_checkWishlist. quiet_cases.
  - destruct product as [p|]; [|apply quiet_same].
    rewrite run_Details_addToCart. quiet_cases.
  - rewrite run_Wishlist_loadWishlist. quiet_cases.
  - destruct m as [l id inc|l id|l pid|id b|p|l pid|p]; cbn [call].
    + unfold Cart.updateQuantity. rewrite run_updateCart. quiet_cases.
    + cbn [Cart.removeItem]. rewrite run_updateCart. quiet_cases.
    + rewrite run_Shop_toggleWishlist. destruct (setItem_fails (faults w)).
      * split; [done|]. right. by eexists _, _.
      * by split; [|left].
    + rewrite run_Details_toggleWishlist. quiet_cases.
    + rewrite run_Details_addToCart. quiet_cases.
    + rewrite run_removeFromWishlist. quiet_cases.
    + rewrite run_Wishlist_addToCart, run_Details_addToCart. quiet_cases.
Qed.

(** The two records are independent and loading never writes: an event
    of the cart leaves the wishlist entry as it is, an event of the
    wishlist leaves the cart entry as it is, and mounting a screen,
    opening a product or a change of the environment leaves the whole
    storage as it is, unreadable entries included. *)
Theorem one_key_per_event (e : event) (w : World) :
  match written_key e with
  | Some Kcart => wishlist_entry (storage (handle e w)) = wishlist_entry (storage w)
  | Some Kwishlist => cart_entry (storage (handle e w)) = cart_entry (storage w)
  | None => storage (handle e w) = storage w
  end.
Proof.
  destruct e as [f c| |id increment|id pressed| |productId|id| | | |productId|i];
    cbn [handle written_key].
  - done.
  - rewrite run_loadCart. unfold caught.
    destruct (getItem_fails _); [done|]. cbn.
    by destruct (cart_entry (storage w)) as [[|?|?|]|].
  - destruct (cartItems w); [|done]. unfold Cart.updateQuantity.
    rewrite run_updateCart. unfold caught. by destruct (setItem_fails _).
  - destruct (cartItems w); [|done]. destruct pressed; [done|].
    cbn [Cart.removeItem]. rewrite run_updateCart. unfold caught.
    by destruct (setItem_fails _).
  - rewrite run_Shop_loadWishlist. unfold caught.
    destruct (getItem_fails _); [done|]. cbn.
    by destruct (wishlist_entry (storage w)) as [[|?|?|]|].
  - destruct (wishlist w); [|done]. rewrite run_Shop_toggleWishlist.
    unfold caught. by destruct (setItem_fails _).
  - assert (forall w', storage (fst (run (ProductDetails.checkWishlist id) w')) =
                        storage w') as Hcheck.
    { intros w'. rewrite run_checkWishlist. unfold caught.
      destruct (getItem_fails _); [done|].
      by destruct (wishlist_entry (storage w')) as [[|?|?|]|]. }
    rewrite Hcheck, run_fetchProduct. unfold caught.
    by destruct (catalog _ id).
  - destruct (product w); [|done]. rewrite run_Details_toggleWishlist. unfold caught.
    destruct (getItem_fails _); [done|].
    destruct (wishlist_entry (storage w)) as [[|?|?|]|]; try done;
      by destruct (setItem_fails _).
  - destruct (product w) as [p|]; [|done]. rewrite run_Details_addToCart. unfold caught.
    destruct (getItem_fails _); [done|].
    destruct (cart_entry (storage w)) as [[|?|?|]|]; try done;
      by destruct (setItem_fails _).
  - rewrite run_Wishlist_loadWishlist. unfold caught. cbn.
    destruct (getItem_fails _); [done|].
    destruct (wishlist_entry (storage w)) as [[|?|?|]|]; try done.
    by destruct (Promise_all _).
  - rewrite run_removeFromWishlist. unfold caught.
    destruct (getItem_fails _); [done|].
    destruct (wishlist_entry (storage w)) as [[|?|?|]|]; try done;
      by destruct (setItem_fails _).
  - destruct (wishlistItems w !! i) as [p|]; [|done].
    rewrite run_Wishlist_addToCart, run_Details_addToCart. unfold caught.
    destruct (getItem_fails _); [done|].
    destruct (cart_entry (storage w)) as [[|?|?|]|]; try done;
      by destruct (setItem_fails _).
Qed.

(** ** The heart of the ProductDetails screen *)

Lemma toggled_flag (id : Z) (l : list Z) :
  negb (bool_decide (id ∈ l)) = bool_decide (id ∈ toggled id l).
Proof.
  pose proof (toggled_flips id l) as H.
  repeat case_bool_decide; try done; tauto.
Qed.

Lemma OpenProduct_checks (id : Z) (w : World) (l : list Z) :
  faults w = healthy -> stored_wishlist w = Some l ->
  faults (handle (OpenProduct id) w) = healthy /\
  stored_wishlist (handle (OpenProduct id) w) = Some l /\
  params_id (handle (OpenProduct id) w) = id /\
  isInWishlist (handle (OpenProduct id) w) = bool_decide (id ∈ l) /\
  product (handle (OpenProduct id) w) = catalog w id.
Proof.
  intros Hf Hs. cbn [handle]. rewrite run_fetchProduct.
  change (catalog (mountProductDetails id w) id) with (catalog w id).
  unfold stored_wishlist in *.
  destruct (catalog w id) as [p|]; unfold caught; cbn [fst];
    rewrite run_checkWishlist; unfold caught; cbn; rewrite Hf; cbn;
    destruct (wishlist_entry (storage w)) as [[|l'|v|]|] eqn:E; cbn in Hs |- *;
    rewrite ?E; cbn; simplify_eq; split_and!; try done;
    symmetry; apply bool_decide_eq_false_2, not_elem_of_nil.
Qed.

Lemma PressHeartInDetails_toggles (w : World) (l : list Z) :
  faults w = healthy -> stored_wishlist w = Some l -> is_Some (product w) ->
  isInWishlist w = bool_decide (params_id w ∈ l) ->
  faults (handle PressHeartInDetails w) = healthy /\
  is_Some (product (handle PressHeartInDetails w)) /\
  stored_wishlist (handle PressHeartInDetails w) = Some (toggled (params_id w) l) /\
  params_id (handle PressHeartInDetails w) = params_id w /\
  isInWishlist (handle PressHeartInDetails w) =
    bool_decide (params_id w ∈ toggled (params_id w) l).
Proof.
  intros Hf Hs [p Hp] Hflag. cbn [handle]. rewrite Hp, run_Details_toggleWishlist, Hf.
  cbn [getItem_fails setItem_fails healthy]. unfold stored_wishlist in *.
  rewrite Hflag, <- toggled_flag.
  destruct (wishlist_entry (storage w)) as [[|l'|v|]|] eqn:E; cbn in Hs |- *;
    simplify_eq; rewrite ?Hf, ?Hp, ?E; cbn; unfold toggled;
    (split_and!; [done|by eexists|by case_bool_decide|done|done]).
Qed.

(** With a healthy adapter and a catalog that knows the product, the
    heart of the ProductDetails screen tells the truth: once the screen
    is open [isInWishlist] says whether the id is in the stored
    wishlist; a press toggles the id in the stored wishlist and the
    heart with it; and two presses give back the set of ids and the
    heart one started from. *)
Theorem heart_follows_the_wishlist (w : World) (id : Z) (l : list Z) :
  faults w = healthy ->
  stored_wishlist w = Some l ->
  is_Some (catalog w id) ->
  isInWishlist (handle (OpenProduct id) w) = bool_decide (id ∈ l) /\
  stored_wishlist (handle PressHeartInDetails (handle (OpenProduct id) w)) =
    Some (toggled id l) /\
  isInWishlist (handle PressHeartInDetails (handle (OpenProduct id) w)) =
    bool_decide (id ∈ toggled id l) /\
  exists l'',
    stored_wishlist
      (handle PressHeartInDetails
         (handle PressHeartInDetails (handle (OpenProduct id) w))) = Some l'' /\
    (forall x, x ∈ l'' <-> x ∈ l) /\
    isInWishlist
      (handle PressHeartInDetails
         (handle PressHeartInDetails (handle (OpenProduct id) w))) =
      bool_decide (id ∈ l).
Proof.
  intros Hf Hs Hc.
  destruct (OpenProduct_checks id w l Hf Hs) as (Hf1 & Hs1 & Hid1 & Hflag1 & Hp1).
  rewrite <- Hp1 in Hc.
  assert (isInWishlist (handle (OpenProduct id) w) =
          bool_decide (params_id (handle (OpenProduct id) w) ∈ l)) as Hflag1'
    by (by rewrite Hid1).
  destruct (PressHeartInDetails_toggles _ l Hf1 Hs1 Hc Hflag1')
    as (Hf2 & Hp2 & Hs2 & Hid2 & Hflag2).
  rewrite Hid1 in Hs2, Hid2, Hflag2.
  assert (isInWishlist (handle PressHeartInDetails (handle (OpenProduct id) w)) =
          bool_decide (params_id (handle PressHeartInDetails (handle (OpenProduct id) w))
                       ∈ toggled id l)) as Hflag2'
    by (by rewrite Hid2).
  destruct (PressHeartInDetails_toggles _ _ Hf2 Hs2 Hp2 Hflag2')
    as (_ & _ & Hs3 & _ & Hflag3).
  rewrite Hid2 in Hs3, Hflag3.
  split_and!; [done..|].
  eexists. split_and!; [exact Hs3|intros x; apply toggled_twice|].
  rewrite Hflag3. pose proof (toggled_twice id id l) as H.
  repeat case_bool_decide; try done; tauto.
Qed.

Lemma heart_follows_the_wishlist_witness :
  isInWishlist (handle (OpenProduct 3) good_wishes) = bool_decide (3 ∈ [1; 3]) /\
  stored_wishlist (handle PressHeartInDetails (handle (OpenProduct 3) good_wishes)) =
    Some (toggled 3 [1; 3]) /\
  isInWishlist (handle PressHeartInDetails (handle (OpenProduct 3) good_wishes)) =
    bool_decide (3 ∈ toggled 3 [1; 3]) /\
  exists l'',
    stored_wishlist
      (handle PressHeartInDetails
         (handle PressHeartInDetails (handle (OpenProduct 3) good_wishes))) = Some l'' /\
    (forall x, x ∈ l'' <-> x ∈ [1; 3]) /\
    isInWishlist
      (handle PressHeartInDetails
         (handle PressHeartInDetails (handle (OpenProduct 3) good_wishes))) =
      bool_decide (3 ∈ [1; 3]).
Proof.
  apply (heart_follows_the_wishlist good_wishes 3 [1; 3]);
    [reflexivity|reflexivity|by eexists].
Defined.

(** ** Removing from the wishlist and from the cart *)

(** On the Wishlist screen, with a healthy adapter, a stored record and
    a screen that shows the products of the stored ids, pressing the
    heart of [productId] removes every occurrence of that id from the
    record and from the screen and nothing else: the other ids keep
    their order, the screen still shows the products of the stored ids,
    a second press changes nothing more, and the cart entry is not
    touched. *)
Theorem removeFromWishlist_removes (w : World) (l : list Z) (productId : Z) :
  faults w = healthy ->
  wishlist_entry (storage w) = Some (Stringified l) ->
  Product.id <$> wishlistItems w = l ->
  exists l',
    stored_wishlist (handle (PressHeartInWishlist productId) w) = Some l' /\
    Product.id <$> wishlistItems (handle (PressHeartInWishlist productId) w) = l' /\
    l' = filter (fun id => id ≠ productId) l /\
    (productId ∉ l') /\
    (l' `sublist_of` l) /\
    (forall x, x ≠ productId -> x ∈ l' <-> x ∈ l) /\
    stored_wishlist
      (handle (PressHeartInWishlist productId)
         (handle (PressHeartInWishlist productId) w)) = Some l' /\
    cart_entry (storage (handle (PressHeartInWishlist productId) w)) =
      cart_entry (storage w).
Proof.
  intros Hf Hs Hitems. exists (filter (fun id => id ≠ productId) l).
  cbn [handle]. rewrite !run_removeFromWishlist, Hf, Hs. cbn. rewrite Hf. cbn.
  split_and!; try done.
  - by rewrite fmap_filter_id, Hitems.
  - apply filter_out_absent.
  - apply sublist_filter.
  - intros x Hx. rewrite list_elem_of_filter. tauto.
  - unfold stored_wishlist. cbn. by rewrite filter_out_twice.
Qed.

Lemma removeFromWishlist_removes_witness :
  exists l',
    stored_wishlist (handle (PressHeartInWishlist 1) wishes_shown) = Some l' /\
    Product.id <$> wishlistItems (handle (PressHeartInWishlist 1) wishes_shown) = l' /\
    l' = filter (fun id => id ≠ 1) [1; 3] /\
    (1 ∉ l') /\
    (l' `sublist_of` [1; 3]) /\
    (forall x, x ≠ 1 -> x ∈ l' <-> x ∈ [1; 3]) /\
    stored_wishlist
      (handle (PressHeartInWishlist 1) (handle (PressHeartInWishlist 1) wishes_shown)) =
      Some l' /\
    cart_entry (storage (handle (PressHeartInWishlist 1) wishes_shown)) =
      cart_entry (storage wishes_shown).
Proof.
  apply (removeFromWishlist_removes wishes_shown [1; 3] 1); reflexivity.
Defined.

(** With nothing stored under the key, the same press does nothing at
    all: the product stays on the screen. *)
Lemma removeFromWishlist_without_record (w : World) (productId : Z) :
  getItem_fails (faults w) = false ->
  truthy (wishlist_entry (storage w)) = false ->
  handle (PressHeartInWishlist productId) w = w.
Proof.
  intros Hf Ht. cbn [handle]. rewrite run_removeFromWishlist, Hf.
  by destruct (wishlist_entry (storage w)) as [[|?|?|]|].
Qed.

Lemma PressTrash_Remove (w : World) (items : list CartItem.t) (id : Z) :
  setItem_fails (faults w) = false ->
  cartItems w = Shaped items ->
  handle (PressTrash id Cart.Remove) w =
    setCartItems (Shaped (filter (fun item => CartItem.id item ≠ id) items))
      (written Kcart (filter (fun item => CartItem.id item ≠ id) items) w).
Proof.
  intros Hf Hm. cbn [handle]. rewrite Hm. cbn [Cart.removeItem].
  by rewrite run_updateCart, Hf.
Qed.

(** The trash button of the cart: Cancel in the alert changes nothing at
    all; Remove, when the adapter accepts the write, shows and persists
    the cart without the line items of that id and with every other
    line item, in order; a second removal changes nothing more, and
    removing an id that is not in the cart leaves the cart as it is. *)
Theorem removeItem_removes (w : World) (items : list CartItem.t) (id : Z) :
  setItem_fails (faults w) = false ->
  cartItems w = Shaped items ->
  handle (PressTrash id Cart.Cancel) w = w /\
  exists newCart,
    cartItems (handle (PressTrash id Cart.Remove) w) = Shaped newCart /\
    stored_cart (handle (PressTrash id Cart.Remove) w) = Some newCart /\
    (id ∉ ids newCart) /\
    (newCart `sublist_of` items) /\
    (forall item, CartItem.id item ≠ id -> item ∈ newCart <-> item ∈ items) /\
    (id ∉ ids items -> newCart = items) /\
    stored_cart (handle (PressTrash id Cart.Remove)
                   (handle (PressTrash id Cart.Remove) w)) = Some newCart.
Proof.
  intros Hf Hm. split.
  - cbn [handle]. by rewrite Hm.
  - exists (filter (fun item => CartItem.id item ≠ id) items).
    rewrite (PressTrash_Remove w items id Hf Hm).
    split_and!; try done.
    + unfold ids. rewrite fmap_filter_id. apply filter_out_absent.
    + apply sublist_filter.
    + intros item Hitem. rewrite list_elem_of_filter. tauto.
    + intros Hid. apply filter_all, Forall_forall. intros item Hin Heq.
      apply Hid. rewrite <- Heq. by apply list_elem_of_fmap_2.
    + erewrite PressTrash_Remove; [|exact Hf|reflexivity].
      unfold stored_cart. cbn. by rewrite filter_out_twice.
Qed.

Lemma removeItem_removes_witness :
  handle (PressTrash 1 Cart.Cancel) one_in_cart = one_in_cart /\
  exists newCart,
    cartItems (handle (PressTrash 1 Cart.Remove) one_in_cart) = Shaped newCart /\
    stored_cart (handle (PressTrash 1 Cart.Remove) one_in_cart) = Some newCart /\
    (1 ∉ ids newCart) /\
    (newCart `sublist_of` [sample_item 1 1]) /\
    (forall item, CartItem.id item ≠ 1 -> item ∈ newCart <-> item ∈ [sample_item 1 1]) /\
    (1 ∉ ids [sample_item 1 1] -> newCart = [sample_item 1 1]) /\
    stored_cart (handle (PressTrash 1 Cart.Remove)
                   (handle (PressTrash 1 Cart.Remove) one_in_cart)) = Some newCart.
Proof.
  apply (removeItem_removes one_in_cart [sample_item 1 1] 1); reflexivity.
Defined.

(** ** A screen that stays mounted writes what it shows *)

Lemma spec_adds (p : Product.t) (l l' : list CartItem.t) :
  addOrIncrement_spec p l l' -> Product.id p ∈ ids l'.
Proof.
  unfold ids. intros [before item after Hb Hid|cart Hc];
    rewrite fmap_app, elem_of_app; right.
  - rewrite fmap_cons. cbn. rewrite Hid. apply elem_of_cons. by left.
  - cbn. apply elem_of_cons. by left.
Qed.

Lemma PressAddToCartInDetails_writes (w : World) (p : Product.t) (l : list CartItem.t) :
  faults w = healthy -> product w = Some p -> stored_cart w = Some l ->
  handle PressAddToCartInDetails w =
    router_push "/cart" (written Kcart (addOrIncrement p l) w).
Proof.
  intros Hf Hp Hs. cbn [handle]. rewrite Hp, run_Details_addToCart, Hf.
  unfold stored_cart in Hs. cbn.
  by destruct (cart_entry (storage w)) as [[|l'|v|]|]; cbn in *; simplify_eq.
Qed.

(** The Cart screen reads the record when it is mounted and never
    again; its buttons write back the list it shows.  So when a product
    the screen does not show is added from its details screen while the
    Cart screen stays mounted, the product is persisted (a Cart screen
    mounted then would show it), the mounted Cart screen still shows its
    old list, and the next plus, minus or confirmed removal on it
    persists a cart without the product: the addition is lost. *)
Theorem cart_screen_overwrites_newer_cart (w : World) (p : Product.t)
    (items l : list CartItem.t) :
  faults w = healthy ->
  product w = Some p ->
  stored_cart w = Some l ->
  cartItems w = Shaped items ->
  Product.id p ∉ ids items ->
  (exists l1, stored_cart (handle PressAddToCartInDetails w) = Some l1 /\
              Product.id p ∈ ids l1 /\
              cartItems (handle MountCart (handle PressAddToCartInDetails w)) =
                Shaped l1) /\
  cartItems (handle PressAddToCartInDetails w) = Shaped items /\
  forall e, (exists id increment, e = PressQuantity id increment) \/
            (exists id, e = PressTrash id Cart.Remove) ->
    exists newCart,
      stored_cart (handle e (handle PressAddToCartInDetails w)) = Some newCart /\
      cartItems (handle e (handle PressAddToCartInDetails w)) = Shaped newCart /\
      (Product.id p ∉ ids newCart).
Proof.
  intros Hf Hp Hs Hm Hid.
  rewrite (PressAddToCartInDetails_writes w p l Hf Hp Hs).
  split_and!.
  - exists (addOrIncrement p l). split_and!; [done| |].
    + eapply spec_adds, addOrIncrement_meets_spec.
    + cbn [handle]. rewrite run_loadCart. cbn. by rewrite Hf.
  - done.
  - intros e [(id & increment & ->)|(id & ->)]; cbn [handle];
      cbn [cartItems router_push written with_storage];
      rewrite Hm; cbn [Cart.removeItem]; unfold Cart.updateQuantity; cbv zeta;
      rewrite run_updateCart; cbn; rewrite Hf; cbn; eexists;
      (split_and!; [done|done|]).
    + intros Hin. apply Hid. eapply elem_of_sublist; [exact Hin|]. apply newCart_ids.
    + intros Hin. apply Hid. eapply elem_of_sublist; [exact Hin|].
      unfold ids. apply fmap_sublist, sublist_filter.
Qed.

Lemma cart_screen_overwrites_newer_cart_witness :
  (exists l1, stored_cart (handle PressAddToCartInDetails cart_behind_details) = Some l1 /\
              3 ∈ ids l1) /\
  cartItems (handle PressAddToCartInDetails cart_behind_details) =
    Shaped [sample_item 1 1] /\
  exists newCart,
    stored_cart (handle (PressQuantity 1 true)
                   (handle PressAddToCartInDetails cart_behind_details)) =
      Some newCart /\
    (3 ∉ ids newCart).
Proof.
  destruct (cart_screen_overwrites_newer_cart cart_behind_details (sample_product 3)
              [sample_item 1 1] [sample_item 1 1] eq_refl eq_refl eq_refl eq_refl)
    as ((l1 & Hl1 & Hin & _) & Hshown & Hpress).
  { by intros ?%list_elem_of_singleton. }
  split_and!; [by exists l1|exact Hshown|].
  destruct (Hpress (PressQuantity 1 true)) as (newCart & Hs & _ & Hout).
  { left. by eexists _, _. }
  by exists newCart.
Defined.

Lemma PressHeartInDetails_wishlist (w : World) :
  wishlist (handle PressHeartInDetails w) = wishlist w.
Proof.
  cbn [handle]. destruct (product w); [|done].
  rewrite run_Details_toggleWishlist. unfold caught.
  destruct (getItem_fails (faults w)); [done|].
  destruct (wishlist_entry (storage w)) as [[|?|?|]|]; cbv zeta;
    by destruct (setItem_fails (faults w)).
Qed.

(** The same holds of the Shop screen and the wishlist.  With the Shop
    screen showing the stored wishlist and the details screen of a
    product open on top of it, the heart of the details screen toggles
    the product in the stored record (a Shop screen mounted then would
    show the new record), the mounted Shop screen still shows the old
    list, and the next heart pressed on the Shop screen for another
    product persists a list in which the first product is as it was
    before: the toggle made on the details screen is undone. *)
Theorem shop_screen_overwrites_newer_wishlist (w : World) (l : list Z)
    (productId : Z) :
  faults w = healthy ->
  is_Some (product w) ->
  stored_wishlist w = Some l ->
  wishlist w = Shaped l ->
  isInWishlist w = bool_decide (params_id w ∈ l) ->
  productId ≠ params_id w ->
  exists l1 l2,
    stored_wishlist (handle PressHeartInDetails w) = Some l1 /\
    (params_id w ∈ l1 <-> params_id w ∉ l) /\
    wishlist (handle MountShop (handle PressHeartInDetails w)) = Shaped l1 /\
    wishlist (handle PressHeartInDetails w) = Shaped l /\
    stored_wishlist
      (handle (PressHeartInShop productId) (handle PressHeartInDetails w)) = Some l2 /\
    (params_id w ∈ l2 <-> params_id w ∈ l).
Proof.
  intros Hf Hp Hs Hm Hflag Hne.
  destruct (PressHeartInDetails_toggles w l Hf Hs Hp Hflag) as (Hf1 & _ & Hs1 & _ & _).
  pose proof (PressHeartInDetails_wishlist w) as Hm1. rewrite Hm in Hm1.
  exists (toggled (params_id w) l), (toggled productId l).
  set (w1 := handle PressHeartInDetails w) in *. clearbody w1.
  split_and!; [done|apply toggled_flips| |done| |].
  - cbn [handle]. rewrite run_Shop_loadWishlist. cbn [faults setWishlist storage].
    rewrite Hf1. cbn. unfold stored_wishlist in Hs1.
    destruct (wishlist_entry (storage w1)) as [[|?|?|]|]; cbn in *; simplify_eq;
      by rewrite <- ?Hs1.
  - cbn [handle]. by rewrite Hm1, run_Shop_toggleWishlist, Hf1.
  - rewrite toggled_elem_of. assert (params_id w ≠ productId) by congruence. tauto.
Qed.

Lemma shop_screen_overwrites_newer_wishlist_witness :
  exists l1 l2,
    stored_wishlist (handle PressHeartInDetails shop_behind_details) = Some l1 /\
    (3 ∈ l1 <-> 3 ∉ [1]) /\
    wishlist (handle MountShop (handle PressHeartInDetails shop_behind_details)) =
      Shaped l1 /\
    wishlist (handle PressHeartInDetails shop_behind_details) = Shaped [1] /\
    stored_wishlist
      (handle (PressHeartInShop 1) (handle PressHeartInDetails shop_behind_details)) =
      Some l2 /\
    (3 ∈ l2 <-> 3 ∈ [1]).
Proof.
  apply (shop_screen_overwrites_newer_wishlist shop_behind_details [1] 1);
    [reflexivity|by eexists|reflexivity|reflexivity|reflexivity|done].
Defined.
